(** * Record linkage between PDF file names and bibliographic rows

    A shallow embedding of [match_pdfs_title_doi/match_records.py]:
    the text normalizer, the file-name decoders, duplicate detection over a
    column, the containment matcher, the unmatched partition and the merge
    of partitions, followed by the properties proved about them.

    Python's [str] is a sequence of Unicode code points; it is modelled as
    [list N].  A row read by [csv.DictReader] is a finite map from column
    names to cells.  A cell is a text, or [None] where the line has fewer
    fields than the header.  The fields of a line longer than the header,
    which the reader keeps under the key [None], are not part of the map:
    no [get] of the program reads them. *)

From Stdlib Require Import NArith List String Ascii DecimalString Lia Permutation.
From stdpp Require Import gmap list fin_maps.
Import ListNotations.

Local Open Scope N_scope.

Abbreviation str := (list N).
Abbreviation path := (list N).
Abbreviation cell := (option (list N)).
Abbreviation row := (gmap (list N) cell).

(** An ASCII literal of the source, as code points. *)
Definition lit (s : string) : str :=
  List.map N_of_ascii (list_ascii_of_string s).

(** ** Normalizer *)
Module Normalizer.

Definition in_range (lo hi c : N) : bool := (lo <=? c) && (c <=? hi).

(** The character classes [a-z] and [0-9] of the two substitutions. *)
Definition is_az (c : N) : bool := in_range 97 122 c.
Definition is_09 (c : N) : bool := in_range 48 57 c.
Definition is_az09 (c : N) : bool := is_az c || is_09 c.

(** [str.lower()] on one code point.  [A-Z] go to [a-z]; U+0130 lowers to
    [i] followed by U+0307 and U+212A (the Kelvin sign) to [k]: these are
    the code points whose lower case holds an ASCII letter.  Every other
    code point lowers to code points outside ASCII, which both
    substitutions of [normalize_text] delete; it is left in place. *)
Definition lower_char (c : N) : str :=
  if in_range 65 90 c then [c + 32]
  else if c =? 304 then [105; 775]
  else if c =? 8490 then [107]
  else [c].

Definition lower (text : str) : str := List.flat_map lower_char text.

(** [re.sub(r'[^cls]', '', text)]: every character outside the class goes. *)
Definition re_sub_not_in (cls : N -> bool) (text : str) : str :=
  List.filter cls text.

Definition normalize_text (text : str) (remove_numbers : bool) : str :=
  match text with
  | [] => []
  | _ =>
      let text := lower text in
      if remove_numbers then re_sub_not_in is_az text
      else re_sub_not_in is_az09 text
  end.

(** [s.startswith(p)] *)
Fixpoint startswith (s p : str) {struct p} : bool :=
  match p, s with
  | [], _ => true
  | _ :: _, [] => false
  | a :: p', b :: s' => (a =? b) && startswith s' p'
  end.

End Normalizer.
Export Normalizer.

(** ** FilenameDecoder *)
Module FilenameDecoder.

(** *** [remove_isr_encoding]: delete every [#x[0-9a-fA-F]+;] *)

Definition is_hex (c : N) : bool :=
  is_09 c || in_range 97 102 c || in_range 65 70 c.

(** Length of the longest run of hexadecimal digits at the head of [s],
    and what follows it. *)
Fixpoint span_hex (s : str) : nat * str :=
  match s with
  | c :: r => if is_hex c then let '(n, r') := span_hex r in (S n, r')
              else (O, s)
  | [] => (O, [])
  end.

(** Length of the match of [#x[0-9a-fA-F]+;] at the head of [s], if any.
    The greedy run takes every hexadecimal digit; giving some back cannot
    help, since the character after a shorter run is a digit, not [;]. *)
Definition isr_match_at (s : str) : option nat :=
  match s with
  | h :: x :: r =>
      if (h =? 35) && (x =? 120) then
        match span_hex r with
        | (S n, semi :: _) =>
            if semi =? 59 then Some (2 + S n + 1)%nat else None
        | _ => None
        end
      else None
  | _ => None
  end.

(** [re.sub(pattern, '', s)] for a pattern that matches no empty string:
    scanning from the left, a match at the current position is dropped
    whole ([skip] counts the characters of it still to drop), any other
    character is kept. *)
Fixpoint re_sub_delete (m : str -> option nat) (skip : nat) (s : str) : str :=
  match s with
  | [] => []
  | c :: r =>
      match skip with
      | S k => re_sub_delete m k r
      | O =>
          match m s with
          | Some (S k) => re_sub_delete m k r
          | _ => c :: re_sub_delete m O r
          end
      end
  end.

Definition remove_isr_encoding (filename : str) : str :=
  re_sub_delete isr_match_at O filename.

(** *** [extract_title_from_pdf_name] *)

(** [re.search]: the start of the leftmost match, [m] telling whether the
    pattern matches at the head of a suffix. *)
Fixpoint re_search (m : str -> bool) (s : str) : option nat :=
  if m s then Some O
  else match s with
       | [] => None
       | _ :: r => option_map S (re_search m r)
       end.

Section YearPattern.
(** [\d] of a [str] pattern is any Unicode decimal digit (category Nd);
    the table belongs to the interpreter and is a parameter here. *)
Variable unicode_decimal : N -> bool.

Definition four_digits (a b c d : N) : bool :=
  unicode_decimal a && unicode_decimal b
  && unicode_decimal c && unicode_decimal d.

(** [_(\d{4})_] at the head of [s]. *)
Definition year_mid_at (s : str) : bool :=
  match s with
  | u :: a :: b :: c :: d :: v :: _ =>
      (u =? 95) && four_digits a b c d && (v =? 95)
  | _ => false
  end.

(** [$] without [re.MULTILINE]: the end of the string, or just before a
    line feed that is the last character. *)
Definition at_dollar (s : str) : bool :=
  match s with
  | [] => true
  | [c] => c =? 10
  | _ => false
  end.

(** [_(\d{4})$] at the head of [s]. *)
Definition year_end_at (s : str) : bool :=
  match s with
  | u :: a :: b :: c :: d :: tl =>
      (u =? 95) && four_digits a b c d && at_dollar tl
  | _ => false
  end.

Definition extract_title_from_pdf_name
    (pdf_name : str) (has_year_pattern : bool) : str :=
  if has_year_pattern then
    match re_search year_mid_at pdf_name with
    | Some i => take i pdf_name
    | None =>
        match re_search year_end_at pdf_name with
        | Some i => take i pdf_name
        | None => pdf_name
        end
    end
  else pdf_name.
End YearPattern.

(** *** [extract_doi_from_pdf_name] *)

Definition doi_resolver_prefix : str := lit "10.1111/".
Definition isj_prefix : str := lit "isj.".
Definition issn_prefix : str := lit "j.1365-2575".
Definition doi_prefix : str := lit "10.".

Definition extract_doi_from_pdf_name (pdf_name : str) : str :=
  if startswith pdf_name isj_prefix then doi_resolver_prefix ++ pdf_name
  else if startswith pdf_name issn_prefix then doi_resolver_prefix ++ pdf_name
  else if startswith pdf_name doi_prefix then pdf_name
  else pdf_name.

End FilenameDecoder.
Export FilenameDecoder.

(** ** Python containers *)
Module Py.

(** [d.get(column, '')] on a row: the cell of the column, [None] included,
    and the empty text for a column the row lacks. *)
Definition get (r : row) (column : str) : cell :=
  default (Some []) (r !! column).

(** A cell where the program reads it as a text.  [None] is false as the
    empty text is, and [normalize_text] and [generate_doi_url] both start
    with [if not x: return ''], so that they take [None] as they take the
    empty text; a cell that passed a truth test is a text. *)
Definition text (value : cell) : str := default [] value.

(** Truth value of a text: only the empty text is false. *)
Definition truthy (s : str) : bool :=
  match s with [] => false | _ :: _ => true end.

(** A [dict] whose iteration order matters, as the list of its items in
    insertion order.  [upsert k f d] is [d[k] = f(d.get(k))]: an existing
    key keeps its place, a new key goes last. *)
Fixpoint upsert {K V} `{EqDecision K}
    (k : K) (f : option V -> V) (d : list (K * V)) : list (K * V) :=
  match d with
  | [] => [(k, f None)]
  | (k', v) :: d' =>
      if decide (k' = k) then (k', f (Some v)) :: d'
      else (k', v) :: upsert k f d'
  end.

(** [enumerate(l)] *)
Definition enumerate {A} (l : list A) : list (nat * A) :=
  combine (seq 0 (length l)) l.

End Py.

(** ** DuplicateDetector *)
Module DuplicateDetector.

(** [str(count)] *)
Definition str_of_nat (n : nat) : str :=
  lit (DecimalString.NilZero.string_of_uint (Nat.to_uint n)).

(** The line reported for a duplicated value:
    [f"  '{orig_value[:60]}...' (出现 {count} 次)"]. *)
Definition duplicate_line (orig_value : str) (count : nat) : str :=
  lit "  '" ++ take 60 orig_value ++ lit "...' (" ++ [20986; 29616; 32]
  ++ str_of_nat count ++ [32; 27425] ++ lit ")".

Section CheckCsv.
Variables (column : str) (keep_numbers : bool).

(** First loop: count the normalized values of the non-empty cells. *)
Definition count_step (value_counts : list (str * nat)) (record : row)
    : list (str * nat) :=
  let value := Py.get record column in
  if Py.truthy (Py.text value) then
    let normalized := normalize_text (Py.text value) (negb keep_numbers) in
    Py.upsert normalized (fun o => S (default O o)) value_counts
  else value_counts.

Definition value_counts (records : list row) : list (str * nat) :=
  fold_left count_step records [].

(** Inner loop of the second pass: the first record whose normalized
    cell is [value] gives the line; the loop then breaks.  The slice
    [orig_value[:60]] of a cell that is [None] raises [TypeError], for which
    [None] stands here. *)
Fixpoint first_line (records : list row) (value : str) (count : nat)
    : option (list str) :=
  match records with
  | [] => Some []
  | record :: rest =>
      let orig_value := Py.get record column in
      if decide (normalize_text (Py.text orig_value) (negb keep_numbers)
                 = value)
      then match orig_value with
           | Some orig_text => Some [duplicate_line orig_text count]
           | None => None
           end
      else first_line rest value count
  end.

(** The lines reported, or [None] when the lookup of a line raises. *)
Definition check_duplicates_in_csv (records : list row)
    : option (list str) :=
  @List.concat str
    <$> mapM (fun '(value, count) =>
                if (1 <? count)%nat then first_line records value count
                else Some [])
             (value_counts records).
End CheckCsv.

End DuplicateDetector.
Export DuplicateDetector.

(** ** MatchEngine *)
Module MatchEngine.

Record match_result := MatchResult {
  matched : list (nat * path);            (* dict: record index -> path *)
  unmatched : list nat;
  multi_matched : list (nat * list path)
}.

Section Match.
Variable unicode_decimal : N -> bool.
Variables (match_column : str).
Variables (use_doi_matching use_special_encoding has_year_pattern : bool).

(** The normalized text a file is matched by. *)
Definition pdf_normalized (pdf_name : str) : str :=
  if use_doi_matching then
    let match_text := extract_doi_from_pdf_name pdf_name in
    normalize_text match_text false
  else
    let processed_name :=
      if use_special_encoding then remove_isr_encoding pdf_name
      else pdf_name in
    let title_part :=
      extract_title_from_pdf_name unicode_decimal processed_name
        has_year_pattern in
    normalize_text title_part true.

(** [pdf_normalized_map]: normalized name -> [(name, path)] list. *)
Definition add_pdf (m : list (str * list (str * path)))
    (item : str * path) : list (str * list (str * path)) :=
  Py.upsert (pdf_normalized item.1) (fun o => default [] o ++ [item]) m.

Definition pdf_normalized_map (pdf_files : list (str * path))
    : list (str * list (str * path)) :=
  fold_left add_pdf pdf_files [].

Definition record_normalized (column_value : str) : str :=
  if use_doi_matching then normalize_text column_value false
  else normalize_text column_value true.

(** The inner loop over [pdf_normalized_map.items()]. *)
Definition matching_pdfs (m : list (str * list (str * path)))
    (record_norm : str) : list path :=
  List.flat_map
    (fun '(pdf_norm, pdf_list) =>
       if Py.truthy pdf_norm && startswith record_norm pdf_norm
       then List.map snd pdf_list else [])
    m.

(** One turn of the loop over [enumerate(records)]. *)
Definition match_step (m : list (str * list (str * path)))
    (acc : match_result) (item : nat * row) : match_result :=
  let '(idx, record) := item in
  let column_value := Py.get record match_column in
  if negb (Py.truthy (Py.text column_value)) then
    MatchResult (matched acc) (unmatched acc ++ [idx]) (multi_matched acc)
  else
    let matching :=
      matching_pdfs m (record_normalized (Py.text column_value)) in
    match matching with
    | [] =>
        MatchResult (matched acc) (unmatched acc ++ [idx])
          (multi_matched acc)
    | [p] =>
        MatchResult (Py.upsert idx (fun _ => p) (matched acc))
          (unmatched acc) (multi_matched acc)
    | _ =>
        MatchResult (matched acc) (unmatched acc)
          (multi_matched acc ++ [(idx, matching)])
    end.

Definition match_pdfs_to_records
    (pdf_files : list (str * path)) (records : list row) : match_result :=
  fold_left (match_step (pdf_normalized_map pdf_files))
    (Py.enumerate records) (MatchResult [] [] []).
End Match.

End MatchEngine.
Export MatchEngine.

(** ** ResultPartitioner *)
Module ResultPartitioner.

Definition unmatch_reason_column : str := lit "Unmatch_Reason".

(** The rows [save_unmatched_csv] hands to the writer: a copy of
    [records[idx]] with the reason column set, for every index in turn.
    [None] stands for the [IndexError] of an index out of range. *)
Definition save_unmatched_rows (records : list row)
    (unmatched_indices : list nat) (reason : str) : option (list row) :=
  mapM (fun idx : nat =>
          (fun record : row =>
             <[unmatch_reason_column := Some reason]> record)
            <$> records !! idx)
       unmatched_indices.

(** The reason [process_journal] passes for every unmatched row:
    "未找到匹配的 PDF 文件" (no matching PDF file found). *)
Definition no_match_reason : str :=
  [26410; 25214; 21040; 21305; 37197; 30340; 32; 80; 68; 70; 32; 25991; 20214].

End ResultPartitioner.
Export ResultPartitioner.

(** ** Aggregator *)
Module Aggregator.

(** What [str.strip()] removes: the code points for which [str.isspace]
    holds. *)
Definition is_space (c : N) : bool :=
  in_range 9 13 c || in_range 28 32 c || (c =? 133) || (c =? 160)
  || (c =? 5760) || in_range 8192 8202 c || (c =? 8232) || (c =? 8233)
  || (c =? 8239) || (c =? 8287) || (c =? 12288).

Fixpoint lstrip (s : str) : str :=
  match s with
  | c :: r => if is_space c then lstrip r else s
  | [] => []
  end.

Definition strip (s : str) : str := rev (lstrip (rev (lstrip s))).

Definition generate_doi_url (doi : str) : str :=
  if negb (Py.truthy doi) || negb (Py.truthy (strip doi)) then []
  else
    let doi := strip doi in
    if startswith doi (lit "http") then doi
    else lit "https://doi.org/" ++ doi.

(** One CSV file of the input directory: the stem of its name, its header,
    the rows its reader yields, and whether the reader then raises instead
    of ending (bytes that do not decode, a line the [csv] module refuses).
    A file that cannot be opened yields no row and raises. *)
Record csv_file := CsvFile {
  stem : str;
  fieldnames : list str;
  rows : list row;
  read_error : bool
}.

(** [csv_file.stem.split('_')[0]] *)
Fixpoint before_underscore (s : str) : str :=
  match s with
  | c :: r => if c =? 95 then [] else c :: before_underscore r
  | [] => []
  end.

Record merge_state := MergeState {
  all_records : list row;
  all_headers : option (list str);
  seen_keys : gset cell
}.

Section Merge.
Variables (add_journal_column add_doi_link deduplicate : bool).
Variable dedup_key : str.
(** [exclude_keys] and [seen_keys] are sets of cells: a key that is [None]
    is looked up and added as any other value. *)
Variable exclude_keys : gset cell.

(** The columns a kept row gains before it is collected. *)
Definition annotate (journal_name : str) (r : row) : row :=
  let r := if add_journal_column
           then <[lit "Journal" := Some journal_name]> r else r in
  if add_doi_link
  then
    let doi := Py.get r (lit "DOI") in
    <[lit "DOI_Download_Link" := Some (generate_doi_url (Py.text doi))]> r
  else r.

(** The body of the loop over the rows of one file. *)
Definition merge_row (journal_name : str) (st : merge_state) (r : row)
    : merge_state :=
  let key := Py.get r dedup_key in
  if bool_decide (key ∈ exclude_keys) then st
  else if deduplicate && bool_decide (key ∈ seen_keys st) then st
  else
    MergeState (all_records st ++ [annotate journal_name r])
      (all_headers st)
      (if deduplicate then {[key]} ∪ seen_keys st else seen_keys st).

(** The header of the first file read becomes the header written. *)
Definition base_headers (headers : list str) : list str :=
  let h := if add_journal_column then lit "Journal" :: headers
           else headers in
  if add_doi_link then h ++ [lit "DOI_Download_Link"] else h.

(** One turn of the loop over the files.  An exception raised while the
    file is read is caught after the loop over its rows: the rows collected
    so far stay, and the header is not looked at. *)
Definition merge_file (st : merge_state) (f : csv_file) : merge_state :=
  let st := fold_left (merge_row (before_underscore (stem f))) (rows f) st in
  if read_error f then st
  else
    match all_headers st with
    | None =>
        MergeState (all_records st) (Some (base_headers (fieldnames f)))
          (seen_keys st)
    | Some _ => st
    end.

(** [csv_files] is the sorted list of the files of the directory.  The
    result holds the rows handed to the writer, in order. *)
Definition merge_csv_files (csv_files : list csv_file) : merge_state :=
  fold_left merge_file csv_files (MergeState [] None ∅).
End Merge.

(** [main]: the identifiers of the merged matched table. *)
Definition collect_matched_dois (matched_rows : list row) : gset cell :=
  fold_left
    (fun dois r =>
       let doi := Py.get r (lit "DOI") in
       if Py.truthy (Py.text doi) then {[doi]} ∪ dois else dois)
    matched_rows ∅.

(** [main]: the merge of the unmatched partitions. *)
Definition merge_unmatched (exclude_keys : gset cell)
    (partitions : list csv_file) : list row :=
  all_records
    (merge_csv_files false true true (lit "DOI") exclude_keys partitions).

End Aggregator.
Export Aggregator.

(** ** Texts joined and listed *)
Module PyStr.

(** [sep.join(parts)] *)
Fixpoint join (sep : str) (parts : list str) : str :=
  match parts with
  | [] => []
  | [p] => p
  | p :: rest => p ++ sep ++ join sep rest
  end.

(** [str(l)] for a list of texts, [repr] being the interpreter's [repr] of
    one text. *)
Definition list_repr (repr : str -> str) (l : list str) : str :=
  lit "[" ++ join (lit ", ") (List.map repr l) ++ lit "]".

End PyStr.

(** ** DuplicateDetector: file names *)
Module DuplicateFiles.

Section CheckFiles.
(** [repr] of a text is a builtin of the interpreter and a parameter here. *)
Variable repr : str -> str.
Variable keep_numbers : bool.

(** First loop: group [(name, str(path))] by the normalized name. *)
Definition name_step (name_counts : list (str * list (str * path)))
    (item : str * path) : list (str * list (str * path)) :=
  let normalized := normalize_text item.1 (negb keep_numbers) in
  Py.upsert normalized (fun o => default [] o ++ [(item.1, item.2)])
    name_counts.

Definition name_counts (files : list (str * path))
    : list (str * list (str * path)) :=
  fold_left name_step files [].

(** The line reported for a group:
    [f"  标准化名 '{normalized}': {[item[0] for item in items]}"]. *)
Definition group_line (normalized : str) (items : list (str * path)) : str :=
  lit "  " ++ [26631; 20934; 21270; 21517] ++ lit " '" ++ normalized
  ++ lit "': " ++ PyStr.list_repr repr (List.map fst items).

Definition check_duplicates_in_files (files : list (str * path)) : list str :=
  List.flat_map
    (fun '(normalized, items) =>
       if (1 <? length items)%nat then [group_line normalized items] else [])
    (name_counts files).
End CheckFiles.

End DuplicateFiles.
Export DuplicateFiles.

(** ** ResultPartitioner: the other tables, and the run of a journal *)
Module ResultRows.

Definition matched_path_column : str := lit "Matched_PDF_Path".
Definition matched_paths_column : str := lit "Matched_PDF_Paths".
Definition match_count_column : str := lit "Match_Count".

(** The rows [save_matched_csv] hands to the writer, in the order of the
    matched map.  [None] stands for the [IndexError] of an index out of
    range. *)
Definition save_matched_rows (records : list row)
    (matched : list (nat * path)) : option (list row) :=
  mapM (fun item : nat * path =>
          (fun record : row =>
             <[matched_path_column := Some item.2]> record)
            <$> records !! item.1)
       matched.

(** The rows [save_multi_matched_csv] hands to the writer.  The count is an
    [int] in the copy of the record; it is held here as the text the writer
    makes of it. *)
Definition save_multi_matched_rows (records : list row)
    (multi_matched : list (nat * list path)) : option (list row) :=
  mapM (fun item : nat * list path =>
          (fun record : row =>
             <[match_count_column := Some (str_of_nat (length item.2))]>
               (<[matched_paths_column :=
                    Some (PyStr.join (lit "; ") item.2)]>
                  record))
            <$> records !! item.1)
       multi_matched.

(** The statistics [process_journal] returns. *)
Record journal_stats := JournalStats {
  total_records : nat;
  total_pdfs : nat;
  stats_matched : nat;
  stats_unmatched : nat;
  stats_multi_matched : nat
}.

(** The three tables of a journal. *)
Inductive table := Matched | Unmatched | MultiMatched.

(** What one call of [process_journal] meets outside the program: whether
    the console takes the report of the duplicated file names and [input()]
    returns, the same for the report of the duplicated cells, and whether
    the writer of a table runs to its end.  A writer does not when the
    directory or the file cannot be written, or when a row holds fields
    beyond the header, which [csv.DictWriter] refuses.  Where one of them
    fails an exception is raised, and it leaves [process_journal]. *)
Record environment := Environment {
  prompt_files : bool;
  prompt_cells : bool;
  writes : table -> bool
}.

(** A part of [process_journal]: from the tables written so far to the
    tables written after it and to its value, [None] when it raises. *)
Record action (A : Type) := Action {
  perform : list (table * list row) -> list (table * list row) * option A
}.
Arguments Action {A} _.
Arguments perform {A} _ _.

Definition ret {A} (a : A) : action A :=
  Action (fun written => (written, Some a)).

Definition raise {A} : action A := Action (fun written => (written, None)).

Definition bind {A B} (m : action A) (k : A -> action B) : action B :=
  Action (fun written =>
            match perform m written with
            | (written, Some a) => perform (k a) written
            | (written, None) => (written, None)
            end).

#[global] Instance action_ret : MRet action := @ret.

#[global] Instance action_bind : MBind action := fun A B k m => bind m k.

(** A value computed by a function that may raise. *)
Definition lift {A} (o : option A) : action A :=
  match o with Some a => ret a | None => raise end.

(** [print(...)] of a report and [input(...)], when there is one. *)
Definition prompt {A} (report : list A) (returns : bool) : action unit :=
  match report with
  | [] => ret tt
  | _ :: _ => if returns then ret tt else raise
  end.

Section ProcessJournal.
(** [repr] of a text is a builtin of the interpreter and a parameter here. *)
Variable repr : str -> str.
Variable unicode_decimal : N -> bool.
Variables use_doi use_special has_year : bool.
Variable env : environment.
Variable pdf_files : list (str * path).
Variable records : list row.

(** The call of [match_pdfs_to_records] in [process_journal]. *)
Definition journal_match : match_result :=
  match_pdfs_to_records unicode_decimal
    (if use_doi then lit "DOI" else lit "Title")
    use_doi use_special has_year pdf_files records.

(** The statistics as they stand where [process_journal] returns.  Without
    a PDF file the journal is skipped and every record counts as unmatched;
    else the counts are those of the three outcomes. *)
Definition process_journal_stats : journal_stats :=
  match pdf_files with
  | [] => JournalStats (length records) 0 0 (length records) 0
  | _ :: _ =>
      JournalStats (length records) (length pdf_files)
        (length (matched journal_match)) (length (unmatched journal_match))
        (length (multi_matched journal_match))
  end.

(** [if partition: save_..._csv(...)]: the rows are built, [rows] being
    [None] for an index out of range, and handed to the writer. *)
Definition save {A} (t : table) (partition : list A)
    (rows : option (list row)) : action unit :=
  match partition with
  | [] => ret tt
  | _ :: _ =>
      rows ← lift rows;
      if writes env t
      then Action (fun written => (written ++ [(t, rows)], Some tt))
      else raise
  end.

(** [process_journal], from the records and the files read and from the
    resolved pattern of the journal: the tables it writes to their end, in
    the order it writes them, and the statistics it returns.  An exception
    raised on the way is logged and raised again: it ends the call. *)
Definition process_journal : action journal_stats :=
  match pdf_files with
  | [] => ret process_journal_stats
  | _ :: _ =>
      let match_column := if use_doi then lit "DOI" else lit "Title" in
      let keep_numbers := use_doi in
      let pdf_dups := check_duplicates_in_files repr keep_numbers pdf_files in
      prompt pdf_dups (prompt_files env) ;;
      csv_dups ←
        lift (check_duplicates_in_csv match_column keep_numbers records);
      prompt csv_dups (prompt_cells env) ;;
      let r := journal_match in
      save Matched (matched r) (save_matched_rows records (matched r)) ;;
      save Unmatched (unmatched r)
        (save_unmatched_rows records (unmatched r) no_match_reason) ;;
      save MultiMatched (multi_matched r)
        (save_multi_matched_rows records (multi_matched r)) ;;
      ret process_journal_stats
  end.
End ProcessJournal.

End ResultRows.
Export ResultRows.

(** ** The naming patterns of the journals *)
Module JournalPatterns.

Record pattern := Pattern {
  has_year : bool;
  use_doi : bool;
  special_encoding : bool
}.

Definition JOURNAL_PATTERNS : list (str * pattern) :=
  [ (lit "DSS", Pattern true false false);
    (lit "EJIS", Pattern true false false);
    (lit "IM", Pattern true false false);
    (lit "IO", Pattern true false false);
    (lit "JSIS", Pattern true false false);
    (lit "JIT", Pattern true false false);
    (lit "ISJ", Pattern false true false);
    (lit "ISR", Pattern false false true);
    (lit "JAIS", Pattern false false false);
    (lit "JMIS", Pattern false false false);
    (lit "MISQ", Pattern false false false) ].

(** [d[k]] if [k in d] *)
Fixpoint dict_find {V} (k : str) (d : list (str * V)) : option V :=
  match d with
  | [] => None
  | (k', v) :: d' => if decide (k' = k) then Some v else dict_find k d'
  end.

Section GetPattern.
(** [str.upper] belongs to the interpreter and is a parameter here. *)
Variable upper : str -> str.

(** [doi_journals] and [special_journals] are sets; they are given by their
    elements, in any order. *)
Definition get_journal_pattern (journal_name : str)
    (doi_journals special_journals : list str) : pattern :=
  let journal_upper := upper journal_name in
  let p :=
    match dict_find journal_upper JOURNAL_PATTERNS with
    | Some p => p
    | None => Pattern true false false
    end in
  let p :=
    if bool_decide (journal_upper ∈ List.map upper doi_journals)
    then Pattern (has_year p) true (special_encoding p) else p in
  if bool_decide (journal_upper ∈ List.map upper special_journals)
  then Pattern (has_year p) (use_doi p) true else p.
End GetPattern.

End JournalPatterns.

(** ** Aggregator: the merges of [main] and what is written *)
Module Merges.

(** [main]: the merge of the matched partitions. *)
Definition merge_matched (partitions : list csv_file) : merge_state :=
  merge_csv_files true false false (lit "DOI") ∅ partitions.

(** [main]: the merge of the multi-matched partitions. *)
Definition merge_multi_matched (partitions : list csv_file) : merge_state :=
  merge_csv_files true true false (lit "DOI") ∅ partitions.

(** The fields [csv.DictWriter] makes of a row: one per field name, empty
    for a column the row lacks and for a cell that is [None]; columns
    outside the field names are ignored. *)
Definition dict_to_list (fieldnames : list str) (r : row) : list str :=
  List.map (fun column => Py.text (Py.get r column)) fieldnames.

(** What a merge writes: nothing without a record, else the header and the
    cells of every record.  [None] in the second place stands for the
    writer failing on a missing header. *)
Definition merge_written (st : merge_state)
    : option (option (list str * list (list str))) :=
  match all_records st with
  | [] => None
  | _ :: _ =>
      Some match all_headers st with
           | Some h => Some (h, List.map (dict_to_list h) (all_records st))
           | None => None
           end
  end.

End Merges.
Export Merges.

(** * Vocabulary of the properties *)

(** The ASCII digits: the part of the decimal-digit table that the concrete
    inputs below consult. *)
Definition ascii_decimal (c : N) : bool := is_09 c.

(** The two columns matched on, and rows that hold them. *)
Definition title : str := lit "Title".

Definition doi_column : str := lit "DOI".

Definition title_row (text : string) : row := {[ title := Some (lit text) ]}.

Definition empty_title_row : row := {[ title := Some [] ]}.

Definition doi_row (doi text : string) : row :=
  <[title := Some (lit text)]> {[ doi_column := Some (lit doi) ]}.

(** A row of a line that ends after the title, under the header
    [Title,DOI]: the reader fills the missing cell with [None]. *)
Definition short_row (text : string) : row :=
  <[title := Some (lit text)]> {[ doi_column := None ]}.

(** A row of a line that ends after the identifier, under the header
    [DOI,Title]. *)
Definition untitled_row (doi : string) : row :=
  <[doi_column := Some (lit doi)]> {[ title := None ]}.

(** A row of a line with a title and an empty identifier. *)
Definition empty_doi_row (text : string) : row :=
  <[title := Some (lit text)]> {[ doi_column := Some [] ]}.

(** The environment in which every prompt returns and every table is
    written. *)
Definition calm : environment := Environment true true (fun _ => true).

(** Two unmatched partitions that share the identifier [10.1111/x]. *)
Definition part_a : csv_file :=
  CsvFile (lit "A_unmatched") [doi_column; title]
    [doi_row "10.1111/x" "read from A"] false.

Definition part_b : csv_file :=
  CsvFile (lit "B_unmatched") [doi_column; title]
    [doi_row "10.1111/y" "another"; doi_row "10.1111/x" "read from B"] false.

(** ** Decoding *)

(** The name starts with one of the two registrar prefixes. *)
Definition registrar_prefixed (pdf_name : str) : Prop :=
  isj_prefix `prefix_of` pdf_name \/ issn_prefix `prefix_of` pdf_name.

Section YearOccurrences.
Variable unicode_decimal : N -> bool.

Local Abbreviation digits := (four_digits unicode_decimal).

(** A separator, four digits and a separator, starting at position [i]. *)
Definition year_mid_occurs (s : str) (i : nat) : Prop :=
exists pre a b c d post,
  s = pre ++ 95 :: a :: b :: c :: d :: 95 :: post
  /\ length pre = i /\ digits a b c d = true.

(** A separator and four digits that end the text, starting at [i]. *)
Definition year_end_occurs (s : str) (i : nat) : Prop :=
exists pre a b c d,
  s = pre ++ [95; a; b; c; d]
  /\ length pre = i /\ digits a b c d = true.

End YearOccurrences.

(** ** Outcomes of matching *)

(** Every record index a result mentions, outcome by outcome. *)
Definition indices (r : match_result) : list nat :=
  List.map fst (matched r) ++ unmatched r ++ List.map fst (multi_matched r).

(** The outcome a list of collected paths stands for. *)
Definition outcome_is (r : match_result) (idx : nat) (ps : list path) : Prop :=
  match ps with
  | [] => In idx (unmatched r)
  | [p] => In (idx, p) (matched r)
  | _ => In (idx, ps) (multi_matched r)
  end.

Section Collected.
Variable unicode_decimal : N -> bool.
Variable match_column : str.
Variables use_doi use_special has_year : bool.

Local Abbreviation key := (pdf_normalized unicode_decimal
                           use_doi use_special has_year).

(** The test of the inner loop, for the key of a file. *)
Definition hits (record_norm : str) (item : str * path) : bool :=
Py.truthy (key item.1) && startswith record_norm (key item.1).

(** The paths the loop body collects for a record: none for an empty cell,
  else those of the files whose key the normalized cell starts with. *)
Definition candidates (m : list (str * list (str * path))) (record : row)
  : list path :=
let column_value := Py.text (Py.get record match_column) in
if Py.truthy column_value
then matching_pdfs m (record_normalized use_doi column_value)
else [].

End Collected.

(** The column [process_journal] matches on. *)
Definition journal_column (use_doi : bool) : str :=
  if use_doi then lit "DOI" else lit "Title".

(** The tables a call of [process_journal] has written when it ends, and
    the statistics it returns, [None] when an exception leaves it. *)
Definition journal_run (repr : str -> str) (unicode_decimal : N -> bool)
    (use_doi use_special has_year : bool) (env : environment)
    (pdf_files : list (str * path)) (records : list row)
    : list (table * list row) * option journal_stats :=
  perform
    (process_journal repr unicode_decimal use_doi use_special has_year env
       pdf_files records)
    [].

(** What the save of a partition adds to the tables written: nothing for
    an empty partition. *)
Definition table_part (t : table) (rows : list row)
    : list (table * list row) :=
  match rows with
  | [] => []
  | _ :: _ => [(t, rows)]
  end.

(** The rows [process_journal] builds for a table, [None] for an index out
    of range. *)
Definition table_rows (t : table) (records : list row) (r : match_result)
    : option (list row) :=
  match t with
  | Matched => save_matched_rows records (matched r)
  | Unmatched => save_unmatched_rows records (unmatched r) no_match_reason
  | MultiMatched => save_multi_matched_rows records (multi_matched r)
  end.


(** ** Rows read and rows kept by a merge *)

(** The rows of the files in the order they are read, each with the
    journal name of its file. *)
Definition tagged (csv_files : list csv_file) : list (str * row) :=
  List.flat_map
    (fun f => List.map (pair (before_underscore (stem f))) (rows f))
    csv_files.

(** The rows of the partitions in the order they are read. *)
Definition rows_read (partitions : list csv_file) : list row :=
  List.flat_map rows partitions.

(** What [main]'s merge of the unmatched partitions adds to a kept row:
    no journal column, the download link. *)
Definition with_link (r : row) : row :=
  <[lit "DOI_Download_Link" :=
      Some (generate_doi_url (Py.text (Py.get r doi_column)))]> r.

(** The header plays no part in which rows are kept. *)
Definition same_rows (s t : merge_state) : Prop :=
  all_records s = all_records t /\ seen_keys s = seen_keys t.

Section Kept.
Variables (add_journal_column add_doi_link deduplicate : bool).
Variable dedup_key : str.
Variable exclude_keys : gset cell.

Local Abbreviation mrow :=
(merge_row add_journal_column add_doi_link deduplicate dedup_key
   exclude_keys).
Local Abbreviation ann := (annotate add_journal_column add_doi_link).

(** The loop over the rows of all files, one after the other. *)
Definition merge_tagged (st : merge_state) (inputs : list (str * row))
  : merge_state :=
fold_left (fun st x => mrow x.1 st x.2) inputs st.

(** The deduplication cell of a row read. *)
Definition row_key (x : str * row) : cell := Py.get x.2 dedup_key.

(** Of the rows of key [k] read so far: none is kept when [k] is excluded,
  the first only under deduplication, all of them otherwise. *)
Definition expected (k : cell) (inputs : list (str * row))
  : list (str * row) :=
if bool_decide (k ∈ exclude_keys) then []
else if deduplicate then take 1 (filter (fun x => row_key x = k) inputs)
else filter (fun x => row_key x = k) inputs.

(** [kept] are the rows of [inputs] a merge in state [st] has kept. *)
Record merged_from (inputs : list (str * row)) (st : merge_state)
  (kept : list (str * row)) : Prop := MergedFrom {
mf_records : all_records st = List.map (fun x => ann x.1 x.2) kept;
mf_sublist : kept `sublist_of` inputs;
mf_keys : forall k, filter (fun x => row_key x = k) kept = expected k inputs;
mf_seen : deduplicate = true ->
          forall k, k ∈ seen_keys st <-> exists x, In x kept /\ row_key x = k
}.

End Kept.

(** ** Vocabulary of the further properties *)

(** The character class a normalization keeps. *)
Definition kept_class (remove_numbers : bool) : N -> bool :=
  if remove_numbers then is_az else is_az09.

(** The text of a file name that is normalized into its key. *)
Definition decoded (unicode_decimal : N -> bool)
    (use_doi use_special has_year : bool) (pdf_name : str) : str :=
  if use_doi then extract_doi_from_pdf_name pdf_name
  else extract_title_from_pdf_name unicode_decimal
         (if use_special then remove_isr_encoding pdf_name else pdf_name)
         has_year.

(** [d.get(k)] on a dictionary kept as the list of its items. *)
Fixpoint od_lookup {K V} `{EqDecision K} (k : K) (d : list (K * V))
    : option V :=
  match d with
  | [] => None
  | (k', v) :: d' => if decide (k' = k) then Some v else od_lookup k d'
  end.

(** The non-empty cells of a column, normalized, in the order of the rows. *)
Definition normalized_cells (column : str) (keep_numbers : bool)
    (records : list row) : list str :=
  List.map
    (fun r => normalize_text (Py.text (Py.get r column)) (negb keep_numbers))
    (List.filter (fun r => Py.truthy (Py.text (Py.get r column))) records).

(** How many non-empty cells of a column normalize to [k]. *)
Definition occurrences (column : str) (keep_numbers : bool)
    (records : list row) (k : str) : nat :=
  length
    (filter (fun r : row =>
               normalize_text (Py.text (Py.get r column)) (negb keep_numbers)
               = k)
       (List.filter (fun r => Py.truthy (Py.text (Py.get r column)))
          records)).

(** The cell of the first record whose cell normalizes to [k], if there is
    such a record. *)
Definition first_cell (column : str) (keep_numbers : bool)
    (records : list row) (k : str) : option cell :=
  (fun found : nat * row => Py.get found.2 column)
    <$> list_find
          (fun r : row =>
             normalize_text (Py.text (Py.get r column)) (negb keep_numbers)
             = k)
          records.

(** The files whose name normalizes to [k], in the order of the file set. *)
Definition same_name_files (keep_numbers : bool) (k : str)
    (files : list (str * path)) : list (str * path) :=
  filter (fun f : str * path => normalize_text f.1 (negb keep_numbers) = k)
    files.

Section GroupStep.
Context {A K V : Type} `{EqDecision K}.
Variables (key : A -> K) (op : V -> A -> V) (e : V).

(** One turn of a loop that files [x] under [key x] in a dictionary. *)
Definition group_step (d : list (K * V)) (x : A) : list (K * V) :=
  Py.upsert (key x) (fun o => op (default e o) x) d.

End GroupStep.

Section Outcomes.
Variable unicode_decimal : N -> bool.
Variable match_column : str.
Variables use_doi use_special has_year : bool.

(** Every entry of a result is backed by the record of its index: a matched
    entry by a record that collects that one path, an unmatched index by a
    record that collects none, a multi-matched entry by a record that
    collects these paths, two or more. *)
Definition outcomes_sound (m : list (str * list (str * path)))
    (records : list row) (r : match_result) : Prop :=
  (forall i p, In (i, p) (matched r) ->
     exists record, records !! i = Some record
                    /\ candidates match_column use_doi m record = [p])
  /\ (forall i, In i (unmatched r) ->
        exists record, records !! i = Some record
                       /\ candidates match_column use_doi m record = [])
  /\ (forall i ps, In (i, ps) (multi_matched r) ->
        exists record, records !! i = Some record
                       /\ candidates match_column use_doi m record = ps
                       /\ (2 <= length ps)%nat).

(** The number of files whose key is not empty and starts the normalized
    cell of a record. *)
Definition hit_count (pdf_files : list (str * path)) (record : row) : nat :=
  length
    (List.filter
       (hits unicode_decimal use_doi use_special has_year
          (record_normalized use_doi
             (Py.text (Py.get record match_column))))
       pdf_files).

End Outcomes.

(** The three lists of a result follow the order of the records below [k]. *)
Definition in_record_order (k : nat) (r : match_result) : Prop :=
  List.map fst (matched r) `sublist_of` seq 0 k
  /\ unmatched r `sublist_of` seq 0 k
  /\ List.map fst (multi_matched r) `sublist_of` seq 0 k.

(** A text with no white space at either end. *)
Definition trimmed (s : str) : Prop :=
  (forall c r, s = c :: r -> is_space c = false)
  /\ (forall c, last s = Some c -> is_space c = false).

(** A text of white space only. *)
Definition blank (s : str) : Prop := List.Forall (fun c => is_space c = true) s.

(** The pattern of the table for a journal name, or the default one. *)
Definition table_pattern (upper : str -> str) (journal_name : str)
    : JournalPatterns.pattern :=
  default (JournalPatterns.Pattern true false false)
    (JournalPatterns.dict_find (upper journal_name)
       JournalPatterns.JOURNAL_PATTERNS).

(** [str.upper] on ASCII texts: the part of it the concrete inputs below
    consult. *)
Definition ascii_upper (s : str) : str :=
  List.map (fun c => if in_range 97 122 c then c - 32 else c) s.

(** [repr] on texts of printable ASCII characters without quote or
    backslash: the part of it the concrete inputs below consult. *)
Definition plain_repr (s : str) : str := lit "'" ++ s ++ lit "'".

(** * Properties *)

(** ** Texts and prefixes *)
Section TextFacts.

Lemma startswith_prefix (s p : str) :
  startswith s p = true <-> p `prefix_of` s.
Proof.
  revert s. induction p as [|a p IH]; intros s; simpl.
  - split; [intros _; apply prefix_nil | done].
  - destruct s as [|b s].
    + split; [done | intros [k Hk]; discriminate Hk].
    + rewrite andb_true_iff, N.eqb_eq, IH. split.
      * intros [-> H]. by apply prefix_cons.
      * intros [k Hk]. injection Hk as -> ->. split; [done | by exists k].
Qed.

Lemma startswith_false (s p : str) :
  startswith s p = false <-> ~ p `prefix_of` s.
Proof.
  rewrite <- startswith_prefix. destruct (startswith s p); split; done.
Qed.

Lemma truthy_nonempty (s : str) : Py.truthy s = true <-> s <> [].
Proof. destruct s; simpl; split; done. Qed.

Lemma normalize_text_nil (b : bool) : normalize_text [] b = [].
Proof. reflexivity. Qed.

End TextFacts.

(** ** Identifier decoding *)
Section DecodeIdentifier.

Lemma resolver_prefix_grows (s : str) : doi_resolver_prefix ++ s <> s.
Proof.
  intros H. apply (f_equal length) in H. rewrite length_app in H.
  simpl in H. lia.
Qed.

(** C8: identifier decoding prepends ["10.1111/"] exactly when the name
    starts with ["isj."] or ["j.1365-2575"]; a name starting with ["10."]
    and any other name come back unchanged. *)
Theorem extract_doi_from_pdf_name_cases (pdf_name : str) :
  (registrar_prefixed pdf_name ->
     extract_doi_from_pdf_name pdf_name = lit "10.1111/" ++ pdf_name)
  /\ (extract_doi_from_pdf_name pdf_name = lit "10.1111/" ++ pdf_name ->
        registrar_prefixed pdf_name)
  /\ (lit "10." `prefix_of` pdf_name ->
        extract_doi_from_pdf_name pdf_name = pdf_name)
  /\ (~ registrar_prefixed pdf_name ->
        extract_doi_from_pdf_name pdf_name = pdf_name).
Proof.
  unfold registrar_prefixed, extract_doi_from_pdf_name.
  destruct (startswith pdf_name isj_prefix) eqn:E1;
    [apply startswith_prefix in E1 | apply startswith_false in E1];
    (destruct (startswith pdf_name issn_prefix) eqn:E2;
     [apply startswith_prefix in E2 | apply startswith_false in E2]).
  1-3: repeat split; auto; try tauto;
    intros [k ->]; destruct E1 as [k1 H1] || destruct E2 as [k1 H1];
    discriminate H1.
  assert (Hsame : (if startswith pdf_name doi_prefix then pdf_name
                   else pdf_name) = pdf_name)
    by (destruct (startswith pdf_name doi_prefix); reflexivity).
  rewrite Hsame. repeat split; auto; try tauto.
  intros H. symmetry in H. by apply resolver_prefix_grows in H.
Qed.

Lemma extract_doi_from_pdf_name_cases_witness :
  extract_doi_from_pdf_name (lit "isj.12026") = lit "10.1111/isj.12026"
  /\ extract_doi_from_pdf_name (lit "10.1016/j.dss") = lit "10.1016/j.dss"
  /\ extract_doi_from_pdf_name (lit "misq-2020") = lit "misq-2020".
Proof.
  split; [|split].
  - apply (proj1 (extract_doi_from_pdf_name_cases (lit "isj.12026"))).
    left. by exists (lit "12026").
  - apply (proj1 (proj2 (proj2
             (extract_doi_from_pdf_name_cases (lit "10.1016/j.dss"))))).
    by exists (lit "1016/j.dss").
  - apply (proj2 (proj2 (proj2
             (extract_doi_from_pdf_name_cases (lit "misq-2020"))))).
    intros [[k H]|[k H]]; discriminate H.
Defined.

End DecodeIdentifier.

(** Closes a goal with a hypothesis that equates lists of different lengths. *)
Ltac length_clash :=
  match goal with
  | H : _ = _ ++ _ |- _ =>
      apply (f_equal length) in H; rewrite length_app in H; simpl in H; lia
  end.

(** ** Title decoding *)
Section DecodeTitle.

Variable unicode_decimal : N -> bool.

(** Among the ASCII characters the decimal digits are [0-9]. *)
Hypothesis ascii_digits : forall c, c < 128 -> unicode_decimal c = is_09 c.

Local Abbreviation extract_title := (extract_title_from_pdf_name unicode_decimal).
Local Abbreviation digits := (four_digits unicode_decimal).
Local Abbreviation year_mid_occurs := (year_mid_occurs unicode_decimal).
Local Abbreviation year_end_occurs := (year_end_occurs unicode_decimal).

Lemma re_search_Some (m : str -> bool) (s : str) (i : nat) :
  re_search m s = Some i ->
  m (drop i s) = true /\ (forall j, (j < i)%nat -> m (drop j s) = false)
  /\ (i <= length s)%nat.
Proof.
  revert i. induction s as [|c s IH]; intros i; simpl.
  - destruct (m []) eqn:E; [|done]. intros [= <-]. repeat split; [done|lia|lia].
  - destruct (m (c :: s)) eqn:E.
    + intros [= <-]. repeat split; [done|lia|lia].
    + destruct (re_search m s) as [k|] eqn:Ek; [|done]. intros [= <-].
      destruct (IH k eq_refl) as (H1 & H2 & H3). repeat split; [done| |simpl; lia].
      intros [|j] Hj; [done|]. apply H2. lia.
Qed.

Lemma re_search_None (m : str -> bool) (s : str) :
  re_search m s = None -> forall j, m (drop j s) = false.
Proof.
  induction s as [|c s IH]; simpl.
  - destruct (m []) eqn:E; [done|]. intros _ j. by rewrite drop_nil.
  - destruct (m (c :: s)) eqn:E; [done|].
    destruct (re_search m s) eqn:Ek; [done|]. intros _ [|j]; [done|].
    by apply IH.
Qed.

Lemma re_search_leftmost (m : str -> bool) (s : str) (i : nat) :
  m (drop i s) = true -> (forall j, (j < i)%nat -> m (drop j s) = false) ->
  re_search m s = Some (i `min` length s)%nat.
Proof.
  intros Hi Hlt. destruct (re_search m s) as [k|] eqn:Ek.
  - destruct (re_search_Some _ _ _ Ek) as (Hk & Hk' & Hlen). f_equal.
    destruct (Nat.lt_trichotomy k (i `min` length s)) as [H|[H|H]]; [|done|].
    + rewrite Hlt in Hk; [done | lia].
    + destruct (Nat.le_gt_cases i (length s)) as [Hle|Hgt].
      * rewrite Hk' in Hi; [done | lia].
      * lia.
  - by rewrite (re_search_None _ _ Ek i) in Hi.
Qed.

Lemma year_mid_at_occurs (s : str) (i : nat) :
  year_mid_at unicode_decimal (drop i s) = true <-> year_mid_occurs s i.
Proof.
  split.
  - intros H. destruct (drop i s) as [|u [|a [|b [|c [|d [|v post]]]]]] eqn:E;
      try discriminate H.
    simpl in H. rewrite !andb_true_iff, !N.eqb_eq in H.
    destruct H as [[-> Hd] ->].
    exists (take i s), a, b, c, d, post. rewrite <- E, take_drop.
    repeat split; [|done]. apply length_take_le.
    destruct (Nat.le_gt_cases i (length s)); [done|].
    rewrite drop_ge in E by lia. done.
  - intros (pre & a & b & c & d & post & -> & <- & Hd).
    rewrite drop_app_length. simpl. by rewrite Hd.
Qed.

Lemma year_end_at_occurs (s : str) (i : nat) :
  year_end_occurs s i -> year_end_at unicode_decimal (drop i s) = true.
Proof.
  intros (pre & a & b & c & d & -> & <- & Hd).
  rewrite drop_app_length. simpl. by rewrite Hd.
Qed.

(** The year in the middle: the name is cut at the leftmost occurrence. *)
Lemma extract_title_mid (s : str) (i : nat) :
  year_mid_occurs s i ->
  (forall j, (j < i)%nat -> ~ year_mid_occurs s j) ->
  extract_title s true = take i s.
Proof.
  intros Hi Hlt. unfold extract_title_from_pdf_name.
  rewrite (re_search_leftmost _ s i).
  - destruct Hi as (pre & a & b & c & d & post & -> & <- & _).
    rewrite length_app. by rewrite Nat.min_l by lia.
  - by apply year_mid_at_occurs.
  - intros j Hj. specialize (Hlt j Hj). rewrite <- year_mid_at_occurs in Hlt.
    by destruct (year_mid_at _ _).
Qed.

Lemma year_mid_absent (s : str) :
  (forall j, ~ year_mid_occurs s j) ->
  re_search (year_mid_at unicode_decimal) s = None.
Proof.
  intros H. destruct (re_search _ s) as [k|] eqn:E; [|done].
  apply re_search_Some in E as (E & _). apply year_mid_at_occurs in E.
  by destruct (H k).
Qed.

(** No year in the middle, a year at the very end: the name is cut there. *)
Lemma extract_title_end (s : str) (i : nat) :
  (forall j, ~ year_mid_occurs s j) -> year_end_occurs s i ->
  extract_title s true = take i s.
Proof.
  intros Hmid Hend. unfold extract_title_from_pdf_name.
  rewrite (year_mid_absent _ Hmid).
  pose proof (year_end_at_occurs _ _ Hend) as Hi.
  destruct (re_search (year_end_at unicode_decimal) s) as [k|] eqn:E.
  - apply re_search_Some in E as (Hk & _ & Hlen).
    destruct Hend as (pre & a & b & c & d & -> & <- & Hd). f_equal.
    rewrite length_app in Hlen. simpl in Hlen.
    destruct (decide (k = length pre)) as [->|Hne]; [done|exfalso].
    destruct (Nat.lt_trichotomy k (length pre)) as [H|[H|H]]; [|done|].
    + rewrite drop_app_le in Hk by lia.
      destruct (drop k pre) as [|u [|x1 tl]] eqn:Ed.
      * apply (f_equal length) in Ed. rewrite length_drop in Ed.
        simpl in Ed. lia.
      * simpl in Hk. rewrite !andb_true_iff, !N.eqb_eq in Hk.
        destruct Hk as [_ ->]. unfold four_digits in Hd.
        rewrite !andb_true_iff in Hd. destruct Hd as [_ Hd].
        by rewrite ascii_digits in Hd.
      * destruct tl as [|x2 [|x3 [|x4 [|x5 [|x6 tl]]]]]; simpl in Hk;
          rewrite ?andb_false_r in Hk; done.
    + rewrite drop_app_ge in Hk by lia.
      remember (k - length pre)%nat as n eqn:En.
      destruct n as [|[|[|[|[|n]]]]];
        [lia|simpl in Hk; rewrite ?drop_nil in Hk; done ..].
  - by rewrite (re_search_None _ _ E i) in Hi.
Qed.

(** Without the year pattern the name is returned as it is. *)
Lemma extract_title_off (s : str) : extract_title s false = s.
Proof. reflexivity. Qed.

(** Neither pattern, and no line feed closing the name: the name is
    returned as it is. *)
Lemma extract_title_none (s : str) :
  (forall j, ~ year_mid_occurs s j) -> (forall j, ~ year_end_occurs s j) ->
  last s <> Some 10 ->
  extract_title s true = s.
Proof.
  intros Hmid Hend Hlast. unfold extract_title_from_pdf_name.
  rewrite (year_mid_absent _ Hmid).
  destruct (re_search (year_end_at unicode_decimal) s) as [k|] eqn:E; [|done].
  exfalso. apply re_search_Some in E as (Hk & _ & Hlen).
  destruct (drop k s) as [|u [|a [|b [|c [|d tl]]]]] eqn:Ed; try done.
  simpl in Hk. rewrite !andb_true_iff, N.eqb_eq in Hk.
  destruct Hk as [[-> Hd] Htl].
  pose proof (take_drop k s) as Hs. rewrite Ed in Hs.
  destruct tl as [|x [|y tl]]; [| |done].
  - apply (Hend k). exists (take k s), a, b, c, d.
    repeat split; [done| |done]. by apply length_take_le.
  - simpl in Htl. apply N.eqb_eq in Htl as ->. apply Hlast.
    rewrite <- Hs.
    change (take k s ++ [95; a; b; c; d; 10])
      with (take k s ++ [95; a; b; c; d] ++ [10]).
    by rewrite app_assoc, last_snoc.
Qed.

(** C7 (failing input): on ["a_2021\n"] neither a separator-delimited year nor a
    year that ends the name occurs, and yet title decoding does not return
    the name unchanged: the [$] of the second pattern also matches before a
    final line feed, and the name is cut to ["a"]. *)
Theorem extract_title_final_line_feed :
  let s := lit "a_2021" ++ [10] in
  (forall j, ~ year_mid_occurs s j) /\ (forall j, ~ year_end_occurs s j)
  /\ extract_title s true = lit "a" /\ extract_title s true <> s.
Proof.
  assert (Heval : extract_title (lit "a_2021" ++ [10]) true = lit "a").
  { unfold extract_title_from_pdf_name.
    change (lit "a_2021" ++ [10]) with [97; 95; 50; 48; 50; 49; 10].
    unfold re_search, year_mid_at, year_end_at, four_digits.
    rewrite !ascii_digits by done. reflexivity. }
  cbv zeta. rewrite Heval. clear Heval.
  change (lit "a_2021" ++ [10]) with [97; 95; 50; 48; 50; 49; 10].
  repeat split; [| |done].
  - intros j (pre & a & b & c & d & post & E & _ & _).
    destruct pre as [|x [|y pre]]; simplify_eq/=. length_clash.
  - intros j (pre & a & b & c & d & E & _ & _).
    destruct pre as [|x [|y [|z pre]]]; simplify_eq/=. length_clash.
Qed.

End DecodeTitle.

Lemma extract_title_final_line_feed_witness :
  extract_title_from_pdf_name ascii_decimal (lit "a_2021" ++ [10]) true = lit "a".
Proof.
  apply (extract_title_final_line_feed ascii_decimal). intros c _. reflexivity.
Defined.

(** ** Ordered dictionaries *)
Section Upsert.
Context {K V : Type} `{EqDecision K}.
Implicit Types (d : list (K * V)) (f : option V -> V).

Lemma upsert_fresh k f d :
  ~ In k (List.map fst d) -> Py.upsert k f d = d ++ [(k, f None)].
Proof.
  induction d as [|[k' v] d IH]; simpl; [done|]. intros Hk.
  destruct (decide (k' = k)) as [->|Hne]; [tauto|].
  f_equal. apply IH. tauto.
Qed.

Lemma upsert_In_same k v d : In (k, v) (Py.upsert k (fun _ => v) d).
Proof.
  induction d as [|[k' v'] d IH]; simpl; [by left|].
  destruct (decide (k' = k)) as [->|Hne]; [by left | by right].
Qed.

Lemma upsert_In_other k f k' v d :
  k' <> k -> In (k', v) d -> In (k', v) (Py.upsert k f d).
Proof.
  intros Hne. induction d as [|[k0 v0] d IH]; simpl; [done|].
  destruct (decide (k0 = k)) as [->|Hk].
  - intros [[= <- <-]|H]; [done | by right].
  - intros [H|H]; [by left | right; auto].
Qed.

End Upsert.

(** ** The outcome of matching *)
Section Classification.

Variable unicode_decimal : N -> bool.
Variable match_column : str.
Variables use_doi use_special has_year : bool.

Local Abbreviation step :=
  (match_step match_column use_doi).
Local Abbreviation run :=
  (match_pdfs_to_records unicode_decimal match_column
     use_doi use_special has_year).

Lemma perm_snoc_mid {A} (a u b : list A) (i : A) :
  a ++ (u ++ [i]) ++ b ≡ₚ i :: a ++ u ++ b.
Proof.
  rewrite <- (app_assoc u). simpl. rewrite !app_assoc.
  symmetry. apply Permutation_middle.
Qed.

Lemma match_step_indices m acc idx record :
  ~ In idx (List.map fst (matched acc)) ->
  indices (step m acc (idx, record)) ≡ₚ idx :: indices acc.
Proof.
  intros Hfresh. unfold match_step, indices.
  destruct (negb (Py.truthy (Py.text (Py.get record match_column)))); simpl;
    [apply perm_snoc_mid|].
  destruct (matching_pdfs _ _) as [|p [|q ps]]; simpl.
  - apply perm_snoc_mid.
  - rewrite (upsert_fresh _ _ _ Hfresh), List.map_app. simpl.
    rewrite <- app_assoc. simpl. symmetry. apply Permutation_middle.
  - rewrite List.map_app, !app_assoc. simpl.
    symmetry. apply Permutation_cons_append.
Qed.

Lemma match_fold_indices m items acc :
  NoDup (List.map fst items ++ indices acc) ->
  indices (fold_left (step m) items acc) ≡ₚ indices acc ++ List.map fst items.
Proof.
  revert acc. induction items as [|[idx record] items IH]; intros acc Hnd; simpl.
  - by rewrite app_nil_r.
  - assert (Hstep : indices (step m acc (idx, record)) ≡ₚ idx :: indices acc).
    { apply match_step_indices. simpl in Hnd.
      apply NoDup_cons in Hnd as [Hidx _]. intros Hin. apply Hidx.
      apply list_elem_of_In, in_or_app. right.
      unfold indices. apply in_or_app. by left. }
    rewrite IH.
    + rewrite Hstep. simpl. apply Permutation_middle.
    + rewrite Hstep, <- Permutation_middle. exact Hnd.
Qed.

Lemma enumerate_indices {A} (l : list A) :
  List.map fst (Py.enumerate l) = seq 0 (length l).
Proof.
  unfold Py.enumerate. generalize 0%nat.
  induction l as [|x l IH]; intros n; simpl; [done|]. by rewrite IH.
Qed.

Lemma run_indices (pdf_files : list (str * path)) (records : list row) :
  indices (run pdf_files records) ≡ₚ seq 0 (length records).
Proof.
  unfold match_pdfs_to_records. rewrite match_fold_indices.
  - simpl. apply reflexive_eq, enumerate_indices.
  - simpl. rewrite app_nil_r, enumerate_indices. apply NoDup_seq.
Qed.

Lemma run_indices_NoDup (pdf_files : list (str * path)) (records : list row) :
  NoDup (indices (run pdf_files records)).
Proof. rewrite run_indices. apply NoDup_seq. Qed.

(** An index that occurs once among all outcomes has one outcome only. *)
Lemma one_outcome (r : match_result) (idx : nat) :
  NoDup (indices r) -> In idx (indices r) ->
  let m := In idx (List.map fst (matched r)) in
  let u := In idx (unmatched r) in
  let mm := In idx (List.map fst (multi_matched r)) in
  (m /\ ~ u /\ ~ mm) \/ (~ m /\ u /\ ~ mm) \/ (~ m /\ ~ u /\ mm).
Proof.
  unfold indices. intros Hnd Hin. cbv zeta.
  apply NoDup_app in Hnd as (_ & Hm & Hnd).
  apply NoDup_app in Hnd as (_ & Hu & _).
  setoid_rewrite list_elem_of_In in Hm. setoid_rewrite list_elem_of_In in Hu.
  setoid_rewrite in_app_iff in Hm.
  apply in_app_or in Hin as [Hin|Hin]; [|apply in_app_or in Hin as [Hin|Hin]].
  - left. specialize (Hm _ Hin). tauto.
  - right; left. repeat split; [|done|by apply Hu].
    intros H. specialize (Hm _ H). tauto.
  - right; right. repeat split; [| |done].
    + intros H. specialize (Hm _ H). tauto.
    + intros H. by apply (Hu _ H).
Qed.

(** C1: the indices of the matched map, of the unmatched list and of the
    multi-matched list are, together, the indices [0 .. len(records)-1],
    each once; so every record has exactly one of the three outcomes. *)
Theorem match_classifies_each_record_once
    (pdf_files : list (str * path)) (records : list row) :
  let r := run pdf_files records in
  indices r ≡ₚ seq 0 (length records)
  /\ forall idx, (idx < length records)%nat ->
       let m := In idx (List.map fst (matched r)) in
       let u := In idx (unmatched r) in
       let mm := In idx (List.map fst (multi_matched r)) in
       (m /\ ~ u /\ ~ mm) \/ (~ m /\ u /\ ~ mm) \/ (~ m /\ ~ u /\ mm).
Proof.
  intros r. split; [apply run_indices|]. intros idx Hidx.
  apply one_outcome; [apply run_indices_NoDup|].
  apply list_elem_of_In. unfold r. rewrite run_indices.
  apply list_elem_of_In, in_seq. lia.
Qed.

(** *** Which files a row collects *)

Local Abbreviation key := (pdf_normalized unicode_decimal
                             use_doi use_special has_year).
Local Abbreviation pdf_map := (pdf_normalized_map unicode_decimal
                                 use_doi use_special has_year).
Local Abbreviation add := (add_pdf unicode_decimal
                             use_doi use_special has_year).
Local Abbreviation hits := (hits unicode_decimal
                              use_doi use_special has_year).
Local Abbreviation candidates := (candidates match_column use_doi).

Lemma matching_pdfs_add m item record_norm :
  matching_pdfs (add m item) record_norm
  ≡ₚ matching_pdfs m record_norm
      ++ (if hits record_norm item then [item.2] else []).
Proof.
  unfold add_pdf, hits. induction m as [|[k l] m IH]; simpl.
  - rewrite app_nil_r. by destruct (_ && _).
  - destruct (decide (k = key item.1)) as [->|Hne]; simpl.
    + destruct (_ && _); simpl; [|by rewrite app_nil_r].
      rewrite List.map_app. simpl. rewrite <- !app_assoc.
      apply Permutation_app_head, Permutation_app_comm.
    + rewrite IH. by rewrite app_assoc.
Qed.

Lemma matching_pdfs_fold files m record_norm :
  matching_pdfs (fold_left add files m) record_norm
  ≡ₚ matching_pdfs m record_norm
      ++ List.map snd (List.filter (hits record_norm) files).
Proof.
  revert m. induction files as [|item files IH]; intros m; simpl.
  - by rewrite app_nil_r.
  - rewrite IH, matching_pdfs_add.
    destruct (hits record_norm item); simpl; [|by rewrite app_nil_r].
    by rewrite <- app_assoc.
Qed.

Lemma matching_pdfs_perm files record_norm :
  matching_pdfs (pdf_map files) record_norm
  ≡ₚ List.map snd (List.filter (hits record_norm) files).
Proof. apply (matching_pdfs_fold files []). Qed.

Lemma hits_spec record_norm item :
  hits record_norm item = true
  <-> key item.1 <> [] /\ key item.1 `prefix_of` record_norm.
Proof.
  unfold hits. by rewrite andb_true_iff, truthy_nonempty, startswith_prefix.
Qed.

Lemma step_outcome m acc idx record :
  outcome_is (step m acc (idx, record)) idx (candidates m record).
Proof.
  unfold match_step, candidates, outcome_is.
  destruct (Py.truthy _); simpl; [|apply in_or_app; right; by left].
  destruct (matching_pdfs _ _) as [|p [|q ps]]; simpl.
  - apply in_or_app; right; by left.
  - apply upsert_In_same.
  - apply in_or_app; right; by left.
Qed.

Lemma step_keeps m acc item idx ps :
  item.1 <> idx -> outcome_is acc idx ps ->
  outcome_is (step m acc item) idx ps.
Proof.
  destruct item as [i record]. simpl. intros Hne.
  assert (Hkeep : forall (A : Type) (x y : A) l, In x l -> In x (l ++ [y]))
    by (intros; apply in_or_app; by left).
  unfold match_step, outcome_is.
  destruct (negb _); [destruct ps as [|p [|q ps]]; simpl; auto|].
  destruct (matching_pdfs _ _) as [|p' [|q' ps']];
    destruct ps as [|p [|q ps]]; simpl; auto.
  apply upsert_In_other. congruence.
Qed.

Lemma fold_keeps m items acc idx ps :
  ~ In idx (List.map fst items) -> outcome_is acc idx ps ->
  outcome_is (fold_left (step m) items acc) idx ps.
Proof.
  revert acc. induction items as [|item items IH]; intros acc Hidx H; simpl;
    [done|].
  simpl in Hidx. apply IH; [tauto|]. apply step_keeps; [|done].
  intros Heq. apply Hidx. by left.
Qed.

Lemma fold_outcome (m : list (str * list (str * path))) (records : list row)
    (n : nat) (acc : match_result) (i : nat) (record : row) :
  records !! i = Some record ->
  outcome_is
    (fold_left (step m) (combine (seq n (length records)) records) acc)
    (n + i) (candidates m record).
Proof.
  revert n acc i. induction records as [|r0 records IH]; intros n acc i;
    [done|].
  destruct i as [|i]; simpl.
  - intros [= ->]. rewrite Nat.add_0_r. apply fold_keeps; [|apply step_outcome].
    intros Hin. apply in_map_iff in Hin as ([j x] & Hj & Hin). simpl in Hj.
    subst j. apply in_combine_l, in_seq in Hin. lia.
  - intros Hi. replace (n + S i)%nat with (S n + i)%nat by lia. by apply IH.
Qed.

(** The outcome of a record is the one its collected paths stand for. *)
Lemma match_outcome (pdf_files : list (str * path)) (records : list row)
    (idx : nat) (record : row) :
  records !! idx = Some record ->
  outcome_is (run pdf_files records) idx (candidates (pdf_map pdf_files) record).
Proof.
  intros H. apply (fold_outcome _ records 0 _ idx record H).
Qed.

Lemma candidates_iff (pdf_files : list (str * path)) (record : row) (p : path) :
  In p (candidates (pdf_map pdf_files) record)
  <-> exists name,
        In (name, p) pdf_files /\ key name <> []
        /\ key name `prefix_of`
             record_normalized use_doi (Py.text (Py.get record match_column)).
Proof.
  unfold candidates.
  assert (Hperm : forall rn,
    In p (matching_pdfs (pdf_map pdf_files) rn)
    <-> exists name, In (name, p) pdf_files /\ key name <> []
                     /\ key name `prefix_of` rn).
  { intros rn. rewrite <- list_elem_of_In, matching_pdfs_perm, list_elem_of_In.
    rewrite in_map_iff. split.
    - intros ([name q] & <- & Hin). apply filter_In in Hin as [Hin Hhit].
      apply hits_spec in Hhit. by exists name.
    - intros (name & Hin & Hkey). exists (name, p). split; [done|].
      apply filter_In. split; [done|]. by apply hits_spec. }
  destruct (Py.text (Py.get record match_column)) as [|c v] eqn:E; simpl;
    [|apply Hperm].
  split; [done|]. intros (name & _ & Hne & Hpre).
  destruct use_doi; simpl in Hpre; by apply prefix_nil_inv in Hpre.
Qed.

Lemma two_distinct_members {A} (x y : A) (l : list A) :
  In x l -> In y l -> x <> y -> (2 <= length l)%nat.
Proof.
  destruct l as [|a [|b l]]; simpl; [done| |lia].
  intros [->|[]] [->|[]]. done.
Qed.

(** C4: two distinct files with one and the same non-empty key that the
    normalized cell of a row starts with put the row in the multi-matched
    list, with both paths; the row is in neither other outcome. *)
Theorem same_key_files_multi_match
    (pdf_files : list (str * path)) (records : list row)
    (idx : nat) (record : row) (n1 n2 : str) (p1 p2 : path) :
  In (n1, p1) pdf_files -> In (n2, p2) pdf_files -> n1 <> n2 ->
  key n1 = key n2 -> key n1 <> [] ->
  records !! idx = Some record ->
  key n1 `prefix_of`
    record_normalized use_doi (Py.text (Py.get record match_column)) ->
  let r := run pdf_files records in
  exists ps, In (idx, ps) (multi_matched r) /\ In p1 ps /\ In p2 ps
             /\ ~ In idx (List.map fst (matched r))
             /\ ~ In idx (unmatched r).
Proof.
  intros H1 H2 Hne Hkey Hk Hrec Hpre r.
  pose proof (match_outcome pdf_files records idx record Hrec) as Hout.
  fold r in Hout.
  assert (Hp1 : In p1 (candidates (pdf_map pdf_files) record))
    by (apply candidates_iff; by exists n1).
  assert (Hp2 : In p2 (candidates (pdf_map pdf_files) record))
    by (apply candidates_iff; exists n2; by rewrite <- Hkey).
  assert (Hlen : (2 <= length (candidates (pdf_map pdf_files) record))%nat).
  { unfold candidates.
    destruct (Py.text (Py.get record match_column)) as [|c v] eqn:E.
    { destruct use_doi; simpl in Hpre; by apply prefix_nil_inv in Hpre. }
    simpl. rewrite matching_pdfs_perm, length_map.
    apply (two_distinct_members (n1, p1) (n2, p2)); [| |congruence];
      apply filter_In; (split; [done|]); apply hits_spec; simpl;
      [|rewrite <- Hkey]; done. }
  destruct (candidates (pdf_map pdf_files) record) as [|q1 [|q2 ps]] eqn:E;
    [simpl in Hlen; lia ..|].
  simpl in Hout. exists (q1 :: q2 :: ps). repeat split; [done ..| |].
  - pose proof (run_indices_NoDup pdf_files records) as Hnd. fold r in Hnd.
    unfold indices in Hnd. apply NoDup_app in Hnd as (_ & Hm & _).
    intros Hin. apply (Hm idx); [by apply list_elem_of_In|].
    apply list_elem_of_In, in_or_app. right.
    apply in_map_iff. by exists (idx, q1 :: q2 :: ps).
  - pose proof (run_indices_NoDup pdf_files records) as Hnd. fold r in Hnd.
    unfold indices in Hnd. apply NoDup_app in Hnd as (_ & _ & Hnd).
    apply NoDup_app in Hnd as (_ & Hu & _).
    intros Hin. apply (Hu idx); [by apply list_elem_of_In|].
    apply list_elem_of_In, in_map_iff. by exists (idx, q1 :: q2 :: ps).
Qed.

(** *** Rows with an empty cell *)




End Classification.

(** ** Matching on concrete file sets *)
Section MatchExamples.

Lemma match_classifies_each_record_once_witness :
  let r := match_pdfs_to_records ascii_decimal title false false true
             [(lit "Study_2021_DSS", lit "pdfs/DSS/Study_2021_DSS.pdf")]
             [title_row "Study of Something 2021"; empty_title_row] in
  In 0%nat (List.map fst (matched r)) /\ ~ In 0%nat (unmatched r)
  /\ ~ In 0%nat (List.map fst (multi_matched r)).
Proof.
  intros r.
  destruct (proj2 (match_classifies_each_record_once ascii_decimal title
              false false true
              [(lit "Study_2021_DSS", lit "pdfs/DSS/Study_2021_DSS.pdf")]
              [title_row "Study of Something 2021"; empty_title_row])
              0%nat ltac:(simpl; lia))
    as [H|[(H & _)|(H & _)]]; [exact H | exfalso; apply H; by left ..].
Defined.

(** C2: a file is collected for a row exactly when its normalized key is
    not empty and the normalized cell of the row starts with it, and the
    row's outcome is the one the collected files stand for.  So the key
    [studyoftrust] matches the row text [studyoftrustinteams], the key
    [studyoftrustinteams] does not match the row text [studyoftrust], and
    a key found only inside the row text does not match. *)
Theorem file_matches_iff_key_prefix :
  (forall unicode_decimal match_column use_doi use_special has_year
          (pdf_files : list (str * path)) (record : row) (p : path),
      let key := pdf_normalized unicode_decimal use_doi use_special has_year in
      In p (candidates match_column use_doi
              (pdf_normalized_map unicode_decimal use_doi use_special
                 has_year pdf_files) record)
      <-> exists name,
            In (name, p) pdf_files /\ key name <> []
            /\ key name `prefix_of`
                 record_normalized use_doi
                   (Py.text (Py.get record match_column)))
  /\ (forall unicode_decimal match_column use_doi use_special has_year
             (pdf_files : list (str * path)) (records : list row)
             (idx : nat) (record : row),
        records !! idx = Some record ->
        outcome_is
          (match_pdfs_to_records unicode_decimal match_column use_doi
             use_special has_year pdf_files records)
          idx
          (candidates match_column use_doi
             (pdf_normalized_map unicode_decimal use_doi use_special
                has_year pdf_files) record))
  /\ (forall unicode_decimal,
        pdf_normalized unicode_decimal false false true (lit "Study of Trust")
          = lit "studyoftrust"
        /\ record_normalized false (lit "Study of Trust in Teams")
           = lit "studyoftrustinteams"
        /\ match_pdfs_to_records unicode_decimal title false false true
             [(lit "Study of Trust", lit "a.pdf")]
             [title_row "Study of Trust in Teams"]
           = MatchResult [(0%nat, lit "a.pdf")] [] []
        /\ match_pdfs_to_records unicode_decimal title false false true
             [(lit "Study of Trust in Teams", lit "a.pdf")]
             [title_row "Study of Trust"]
           = MatchResult [] [0%nat] []
        /\ match_pdfs_to_records unicode_decimal title false false true
             [(lit "Trust", lit "a.pdf")]
             [title_row "Study of Trust in Teams"]
           = MatchResult [] [0%nat] []).
Proof.
  split; [|split].
  - intros. apply candidates_iff.
  - intros. by apply match_outcome.
  - intros ud. repeat split; reflexivity.
Qed.

Lemma file_matches_iff_key_prefix_witness :
  outcome_is
    (match_pdfs_to_records ascii_decimal title false false true
       [(lit "Study_2021_DSS", lit "Study_2021_DSS.pdf")]
       [title_row "Study of Something 2021"])
    0%nat [lit "Study_2021_DSS.pdf"].
Proof.
  apply (proj1 (proj2 file_matches_iff_key_prefix) ascii_decimal title
           false false true
           [(lit "Study_2021_DSS", lit "Study_2021_DSS.pdf")]
           [title_row "Study of Something 2021"] 0%nat
           (title_row "Study of Something 2021")).
  reflexivity.
Defined.

Lemma same_key_files_multi_match_witness :
  exists ps,
    In (0%nat, ps)
      (multi_matched
         (match_pdfs_to_records ascii_decimal title false false true
            [(lit "Trust A", lit "1.pdf"); (lit "trust-a", lit "2.pdf")]
            [title_row "Trust: a study"]))
    /\ In (lit "1.pdf") ps /\ In (lit "2.pdf") ps.
Proof.
  destruct (same_key_files_multi_match ascii_decimal title false false true
              [(lit "Trust A", lit "1.pdf"); (lit "trust-a", lit "2.pdf")]
              [title_row "Trust: a study"] 0%nat (title_row "Trust: a study")
              (lit "Trust A") (lit "trust-a") (lit "1.pdf") (lit "2.pdf"))
    as (ps & H & H1 & H2 & _).
  - by left.
  - right; by left.
  - discriminate.
  - reflexivity.
  - discriminate.
  - reflexivity.
  - apply startswith_prefix. reflexivity.
  - by exists ps.
Defined.

End MatchExamples.

(** ** The run of a journal *)
Section JournalRun.

Variable repr : str -> str.
Variable unicode_decimal : N -> bool.
Variables use_doi use_special has_year : bool.

Local Abbreviation outcome :=
  (journal_match unicode_decimal use_doi use_special has_year).
Local Abbreviation stats :=
  (process_journal_stats unicode_decimal use_doi use_special has_year).
Local Abbreviation run :=
  (journal_run repr unicode_decimal use_doi use_special has_year).

Lemma run_lengths (match_column : str) (pdf_files : list (str * path))
    (records : list row) :
  let r := match_pdfs_to_records unicode_decimal match_column
             use_doi use_special has_year pdf_files records in
  (length (matched r) + length (unmatched r) + length (multi_matched r))%nat
  = length records.
Proof.
  intros r.
  pose proof (run_indices unicode_decimal match_column use_doi use_special
                has_year pdf_files records) as H.
  apply Permutation_length in H. fold r in H. unfold indices in H.
  rewrite !length_app, !length_map, length_seq in H. lia.
Qed.

Lemma index_in_range (match_column : str) (pdf_files : list (str * path))
    (records : list row) (i : nat) :
  In i (indices (match_pdfs_to_records unicode_decimal match_column
                   use_doi use_special has_year pdf_files records)) ->
  (i < length records)%nat.
Proof.
  intros Hin%list_elem_of_In. rewrite run_indices in Hin.
  apply list_elem_of_In, in_seq in Hin. lia.
Qed.

Lemma mapM_lookup_total {I : Type} (records : list row) (idx : I -> nat)
    (h : I -> row -> row) (items : list I) :
  (forall it, In it items -> (idx it < length records)%nat) ->
  exists rows,
    mapM (fun it => h it <$> records !! idx it) items = Some rows
    /\ length rows = length items.
Proof.
  induction items as [|it items IH]; intros Hlt; [by exists []|].
  destruct IH as (rows & Hrows & Hlen); [intros; apply Hlt; by right|].
  destruct (lookup_lt_is_Some_2 records (idx it)) as [r0 Hr0];
    [apply Hlt; by left|].
  exists (h it r0 :: rows). split; [|simpl; by rewrite Hlen].
  cbn. rewrite Hr0. cbn. cbn in Hrows. by rewrite Hrows.
Qed.

(** The three saves build their rows for every result of a match: no
    index is out of range. *)
Lemma save_rows_total (pdf_files : list (str * path)) (records : list row) :
  let r := outcome pdf_files records in
  exists m u mm,
    save_matched_rows records (matched r) = Some m
    /\ save_unmatched_rows records (unmatched r) no_match_reason = Some u
    /\ save_multi_matched_rows records (multi_matched r) = Some mm
    /\ length m = length (matched r) /\ length u = length (unmatched r)
    /\ length mm = length (multi_matched r).
Proof.
  intros r.
  assert (Hrange : forall i,
            In i (List.map fst (matched r)) \/ In i (unmatched r)
            \/ In i (List.map fst (multi_matched r)) ->
            (i < length records)%nat).
  { intros i Hi.
    apply (index_in_range (if use_doi then lit "DOI" else lit "Title")
             pdf_files).
    fold (outcome pdf_files records). fold r. unfold indices.
    rewrite !in_app_iff. tauto. }
  destruct (mapM_lookup_total records fst
              (fun (it : nat * path) record =>
                 <[matched_path_column := Some it.2]> record)
              (matched r)) as (m & Hm & Hlm).
  { intros it Hin. apply Hrange. left. by apply in_map. }
  destruct (mapM_lookup_total records (fun i : nat => i)
              (fun (_ : nat) record =>
                 <[unmatch_reason_column := Some no_match_reason]> record)
              (unmatched r)) as (u & Hu & Hlu).
  { intros it Hin. apply Hrange. right; by left. }
  destruct (mapM_lookup_total records fst
              (fun (it : nat * list path) record =>
                 <[match_count_column := Some (str_of_nat (length it.2))]>
                   (<[matched_paths_column :=
                        Some (PyStr.join (lit "; ") it.2)]> record))
              (multi_matched r)) as (mm & Hmm & Hlmm).
  { intros it Hin. apply Hrange. right; right. by apply in_map. }
  by exists m, u, mm.
Qed.

Lemma perform_bind {A B} (m : action A) (k : A -> action B)
    (written : list (table * list row)) :
  perform (m ≫= k) written
  = match perform m written with
    | (written, Some a) => perform (k a) written
    | (written, None) => (written, None)
    end.
Proof. reflexivity. Qed.

Lemma perform_prompt {A} (report : list A) (returns : bool)
    (written : list (table * list row)) :
  perform (prompt report returns) written
  = (written,
     if bool_decide (report = []) || returns then Some tt else None).
Proof. by destruct report, returns. Qed.

Lemma perform_save (env : environment) {A} (t : table) (partition : list A)
    (rows : list row) (written : list (table * list row)) :
  length rows = length partition ->
  perform (save env t partition (Some rows)) written
  = if bool_decide (rows = []) || writes env t
    then (written ++ table_part t rows, Some tt)
    else (written, None).
Proof.
  destruct partition, rows; try done; intros _; simpl.
  - by rewrite app_nil_r.
  - unfold mbind, action_bind. simpl. by destruct (writes env t).
Qed.

(** A journal with files: the run step by step. *)
Lemma journal_run_files (env : environment) (f : str * path)
    (fs : list (str * path)) (records : list row) :
  let pdf_files := f :: fs in
  let r := outcome pdf_files records in
  let column := if use_doi then lit "DOI" else lit "Title" in
  exists m u mm,
    save_matched_rows records (matched r) = Some m
    /\ save_unmatched_rows records (unmatched r) no_match_reason = Some u
    /\ save_multi_matched_rows records (multi_matched r) = Some mm
    /\ length m = length (matched r) /\ length u = length (unmatched r)
    /\ length mm = length (multi_matched r)
    /\ run env pdf_files records
       = if bool_decide (check_duplicates_in_files repr use_doi pdf_files = [])
            || prompt_files env
         then
           match check_duplicates_in_csv column use_doi records with
           | Some csv_dups =>
               if bool_decide (csv_dups = []) || prompt_cells env then
                 if bool_decide (m = []) || writes env Matched then
                   if bool_decide (u = []) || writes env Unmatched then
                     if bool_decide (mm = []) || writes env MultiMatched then
                       (table_part Matched m ++ table_part Unmatched u
                        ++ table_part MultiMatched mm,
                        Some (stats pdf_files records))
                     else
                       (table_part Matched m ++ table_part Unmatched u, None)
                   else (table_part Matched m, None)
                 else ([], None)
               else ([], None)
           | None => ([], None)
           end
         else ([], None).
Proof.
  intros pdf_files r column.
  destruct (save_rows_total pdf_files records)
    as (m & u & mm & Hm & Hu & Hmm & Hlm & Hlu & Hlmm).
  fold r in Hm, Hu, Hmm, Hlm, Hlu, Hlmm.
  exists m, u, mm. repeat split; try done.
  unfold journal_run, process_journal. cbv zeta.
  fold (outcome pdf_files records). fold r. fold column.
  rewrite Hm, Hu, Hmm.
  unfold pdf_files at 1.
  rewrite perform_bind, perform_prompt.
  destruct (bool_decide _ || prompt_files env); [|done].
  rewrite perform_bind.
  destruct (check_duplicates_in_csv column use_doi records) as [csv_dups|];
    [|done].
  cbn [lift ret perform].
  rewrite perform_bind, perform_prompt.
  destruct (bool_decide _ || prompt_cells env); [|done].
  rewrite perform_bind, perform_save by done.
  destruct (bool_decide _ || writes env Matched); [|done].
  rewrite perform_bind, perform_save by done.
  destruct (bool_decide _ || writes env Unmatched); [|done].
  rewrite perform_bind, perform_save by done.
  destruct (bool_decide _ || writes env MultiMatched); [|done].
  simpl. by rewrite <- app_assoc.
Qed.

Lemma table_part_In (t t' : table) (rows rows' : list row) :
  In (t, rows) (table_part t' rows') -> t = t' /\ rows = rows' /\ rows <> [].
Proof. destruct rows'; simpl; [done|]. by intros [[= <- <-]|[]]. Qed.

(** Whatever the environment, a table that is written holds the rows
    built for it from the result of the match, and is not empty. *)
Lemma journal_run_tables (env : environment) (pdf_files : list (str * path))
    (records : list row) (t : table) (rows : list row) :
  In (t, rows) (run env pdf_files records).1 ->
  table_rows t records (outcome pdf_files records) = Some rows /\ rows <> [].
Proof.
  destruct pdf_files as [|f fs]; [done|].
  destruct (journal_run_files env f fs records)
    as (m & u & mm & Hm & Hu & Hmm & _ & _ & _ & ->).
  assert (Hpart : In (t, rows)
                    (table_part Matched m ++ table_part Unmatched u
                     ++ table_part MultiMatched mm) ->
                  table_rows t records (outcome (f :: fs) records) = Some rows
                  /\ rows <> []).
  { rewrite !in_app_iff.
    by intros [H|[H|H]]; apply table_part_In in H as (-> & -> & ?). }
  repeat case_match; simpl; intros Hin; try done; apply Hpart; clear Hpart;
    rewrite ?in_app_iff in *; tauto.
Qed.

(** A run that returns for a journal with files has written the tables
    that are not empty, in the order matched, unmatched, multi-matched. *)
Lemma journal_run_returned (env : environment) (pdf_files : list (str * path))
    (records : list row) (s : journal_stats) :
  (run env pdf_files records).2 = Some s -> pdf_files <> [] ->
  let r := outcome pdf_files records in
  exists m u mm,
    table_rows Matched records r = Some m
    /\ table_rows Unmatched records r = Some u
    /\ table_rows MultiMatched records r = Some mm
    /\ length m = length (matched r) /\ length u = length (unmatched r)
    /\ length mm = length (multi_matched r)
    /\ (run env pdf_files records).1
       = table_part Matched m ++ table_part Unmatched u
         ++ table_part MultiMatched mm
    /\ s = stats pdf_files records.
Proof.
  destruct pdf_files as [|f fs]; [done|]. intros Hs _ r.
  destruct (journal_run_files env f fs records)
    as (m & u & mm & Hm & Hu & Hmm & Hlm & Hlu & Hlmm & Hrun).
  exists m, u, mm. repeat split; try done; rewrite Hrun in *;
    repeat case_match; simpl in *; congruence.
Qed.

End JournalRun.

(** ** The reason written for a row with an empty cell *)
Section EmptyCell.




End EmptyCell.


(** ** Merging partitions *)
Section MergeFacts.

Variables (add_journal_column add_doi_link deduplicate : bool).
Variable dedup_key : str.
Variable exclude_keys : gset cell.

Local Abbreviation mrow :=
  (merge_row add_journal_column add_doi_link deduplicate dedup_key
     exclude_keys).
Local Abbreviation mfile :=
  (merge_file add_journal_column add_doi_link deduplicate dedup_key
     exclude_keys).
Local Abbreviation ann := (annotate add_journal_column add_doi_link).

Local Abbreviation merge_tagged :=
  (merge_tagged add_journal_column add_doi_link deduplicate dedup_key
     exclude_keys).
Local Abbreviation row_key := (row_key dedup_key).
Local Abbreviation expected := (expected deduplicate dedup_key exclude_keys).
Local Abbreviation merged_from :=
  (merged_from add_journal_column add_doi_link deduplicate dedup_key
     exclude_keys).

Implicit Types (inputs kept : list (str * row)) (st s t : merge_state).

Lemma merge_row_same jn r s t :
  same_rows s t -> same_rows (mrow jn s r) (mrow jn t r).
Proof.
  intros [Hr Hs]. unfold merge_row. rewrite Hs.
  destruct (bool_decide _); [done|].
  destruct (_ && _); [done|]. split; simpl; congruence.
Qed.

Lemma merge_rows_same jn rs s t :
  same_rows s t ->
  same_rows (fold_left (mrow jn) rs s)
            (merge_tagged t (List.map (pair jn) rs)).
Proof.
  revert s t. induction rs as [|r rs IH]; intros s t H; simpl; [done|].
  apply IH. by apply merge_row_same.
Qed.

Lemma merge_file_same f s t :
  same_rows s t ->
  same_rows (mfile s f)
    (merge_tagged t (List.map (pair (before_underscore (stem f))) (rows f))).
Proof.
  intros H. unfold merge_file.
  pose proof (merge_rows_same (before_underscore (stem f)) (rows f) s t H)
    as Hrows.
  destruct (read_error f); [done|]. by destruct (all_headers _).
Qed.

Lemma merge_files_same csv_files s t :
  same_rows s t ->
  same_rows (fold_left mfile csv_files s) (merge_tagged t (tagged csv_files)).
Proof.
  revert s t. induction csv_files as [|f fs IH]; intros s t H; simpl; [done|].
  unfold merge_tagged. rewrite fold_left_app. apply IH.
  by apply merge_file_same.
Qed.

(** *** What is kept *)

Lemma filter_key_snoc (k : cell) (l : list (str * row)) (x : str * row) :
  filter (fun y => row_key y = k) (l ++ [x])
  = filter (fun y => row_key y = k) l
      ++ (if decide (row_key x = k) then [x] else []).
Proof.
  by rewrite filter_app.
Qed.

Lemma kept_key_nonempty (kept : list (str * row)) (x : str * row) :
  In x kept -> filter (fun y => row_key y = row_key x) kept <> [].
Proof.
  intros Hin Hnil.
  assert (H : x ∈ filter (fun y => row_key y = row_key x) kept)
    by (apply list_elem_of_filter; split; [done | by apply list_elem_of_In]).
  rewrite Hnil in H. by apply not_elem_of_nil in H.
Qed.

Lemma merge_row_spec inputs st kept (x : str * row) :
  merged_from inputs st kept ->
  exists kept', merged_from (inputs ++ [x]) (mrow x.1 st x.2) kept'.
Proof.
  intros [Hrec Hsub Hkeys Hseen]. unfold merge_row.
  fold (row_key x).
  destruct (bool_decide (row_key x ∈ exclude_keys)) eqn:Hex.
  { (* the key is excluded *)
    apply bool_decide_eq_true in Hex.
    exists kept. split; [done|by apply sublist_inserts_r| |done].
    intros k. rewrite Hkeys. unfold expected.
    destruct (bool_decide (k ∈ exclude_keys)) eqn:Hk; [done|].
    apply bool_decide_eq_false in Hk.
    rewrite filter_key_snoc. destruct (decide (row_key x = k)) as [<-|_];
      [done|]. by rewrite app_nil_r. }
  apply bool_decide_eq_false in Hex.
  destruct (deduplicate && bool_decide (row_key x ∈ seen_keys st)) eqn:Hdup.
  { (* the key was seen *)
    apply andb_true_iff in Hdup as [Hded Hin].
    apply bool_decide_eq_true in Hin.
    apply (Hseen Hded) in Hin as (y & Hy & Hyk).
    exists kept. split; [done|by apply sublist_inserts_r| |done].
    intros k. rewrite Hkeys. unfold expected.
    destruct (bool_decide (k ∈ exclude_keys)); [done|]. rewrite Hded.
    rewrite filter_key_snoc. destruct (decide (row_key x = k)) as [<-|_];
      [|by rewrite app_nil_r].
    pose proof (kept_key_nonempty kept y Hy) as Hne.
    rewrite Hyk, Hkeys in Hne. unfold expected in Hne.
    rewrite Hded in Hne.
    destruct (bool_decide (row_key x ∈ exclude_keys)); [done|].
    by destruct (filter _ inputs). }
  (* the row is kept *)
  exists (kept ++ [x]). split.
  - simpl. rewrite List.map_app. simpl. by rewrite Hrec.
  - by apply sublist_app.
  - intros k. rewrite filter_key_snoc, Hkeys. unfold expected.
    destruct (bool_decide (k ∈ exclude_keys)) eqn:Hk.
    { apply bool_decide_eq_true in Hk.
      by destruct (decide (row_key x = k)) as [<-|_]. }
    destruct deduplicate eqn:Hded; [|by rewrite filter_key_snoc].
    rewrite filter_key_snoc.
    destruct (decide (row_key x = k)) as [<-|_]; [|by rewrite !app_nil_r].
    simpl in Hdup. apply bool_decide_eq_false in Hdup.
    assert (Hnone : filter (fun y => row_key y = row_key x) inputs = []).
    { destruct (filter (fun y => row_key y = row_key x) inputs)
        as [|y l] eqn:E; [done|]. exfalso. apply Hdup.
      apply (Hseen eq_refl).
      assert (Hy : y ∈ filter (fun y => row_key y = row_key x) kept).
      { rewrite Hkeys. unfold expected. rewrite Hk, E. by left. }
      apply list_elem_of_filter in Hy as [Hyk Hy].
      exists y. split; [by apply list_elem_of_In | done]. }
    by rewrite Hnone.
  - intros Hded k. simpl. rewrite Hded. rewrite elem_of_union,
      elem_of_singleton, (Hseen Hded). split.
    + intros [->|(y & Hy & Hyk)].
      * exists x. split; [apply in_or_app; right; by left | done].
      * exists y. split; [apply in_or_app; by left | done].
    + intros (y & Hy & Hyk). apply in_app_or in Hy as [Hy|[<-|[]]].
      * right. by exists y.
      * by left.
Qed.

Lemma merge_tagged_spec inputs :
  exists kept,
    merged_from inputs (merge_tagged (MergeState [] None ∅) inputs) kept.
Proof.
  induction inputs as [|x inputs IH] using rev_ind.
  - exists []. split; simpl; [done|done| |].
    + intros k. unfold expected. rewrite filter_nil.
      destruct (bool_decide _); [done|]. by destruct deduplicate.
    + intros _ k. split; [by intros H%not_elem_of_empty|by intros (x & [] & _)].
  - destruct IH as (kept & IH). unfold merge_tagged.
    rewrite fold_left_app. simpl. by apply (merge_row_spec _ _ kept).
Qed.

(** The rows a merge hands to the writer are the kept rows, annotated. *)
Lemma merge_csv_files_spec (csv_files : list csv_file) :
  exists kept,
    all_records (merge_csv_files add_journal_column add_doi_link deduplicate
                   dedup_key exclude_keys csv_files)
    = List.map (fun x => ann x.1 x.2) kept
    /\ kept `sublist_of` tagged csv_files
    /\ forall k, filter (fun x => row_key x = k) kept
                 = expected k (tagged csv_files).
Proof.
  destruct (merge_tagged_spec (tagged csv_files)) as (kept & [Hrec Hsub Hk _]).
  exists kept. split; [|done].
  destruct (merge_files_same csv_files (MergeState [] None ∅)
              (MergeState [] None ∅)) as [H _]; [done|].
  unfold merge_csv_files. by rewrite H.
Qed.

End MergeFacts.

(** ** The merged unmatched table *)
Section UnmatchedMerge.

Local Abbreviation has_doi k := (fun r : row => Py.get r doi_column = k).

Lemma with_link_doi (r : row) :
  Py.get (with_link r) doi_column = Py.get r doi_column.
Proof. unfold with_link, Py.get. by rewrite lookup_insert_ne. Qed.

Lemma filter_with_link (k : cell) (kept : list (str * row)) :
  filter (has_doi k) (List.map (fun x => with_link x.2) kept)
  = List.map with_link
      (filter (has_doi k) (List.map snd kept)).
Proof.
  induction kept as [|x kept IH]; simpl; [done|].
  rewrite !filter_cons, with_link_doi, IH. by destruct (decide _).
Qed.

Lemma filter_snd_tagged (k : cell) (l : list (str * row)) :
  filter (has_doi k) (List.map snd l)
  = List.map snd (filter (fun x => row_key doi_column x = k) l).
Proof.
  induction l as [|x l IH]; simpl; [done|].
  rewrite !filter_cons, IH. unfold row_key. by destruct (decide _).
Qed.

Lemma tagged_rows (partitions : list csv_file) :
  List.map snd (tagged partitions) = rows_read partitions.
Proof.
  unfold tagged, rows_read.
  induction partitions as [|f fs IH]; simpl; [done|].
  rewrite List.map_app, IH, List.map_map. simpl. by rewrite List.map_id.
Qed.

Lemma map_take {A B} (f : A -> B) (n : nat) (l : list A) :
  List.map f (take n l) = take n (List.map f l).
Proof. revert n. induction l; intros [|n]; simpl; by f_equal. Qed.

(** The rows of one identifier in the merged table: none when the
    identifier is excluded, else the first row read with it. *)
Lemma merge_unmatched_key (exclude_keys : gset cell)
    (partitions : list csv_file) (k : cell) :
  filter (has_doi k) (merge_unmatched exclude_keys partitions)
  = if bool_decide (k ∈ exclude_keys) then []
    else List.map with_link (take 1 (filter (has_doi k) (rows_read partitions))).
Proof.
  unfold merge_unmatched. fold doi_column.
  destruct (merge_csv_files_spec false true true doi_column exclude_keys
              partitions) as (kept & -> & _ & Hkeys).
  change (List.map (fun x => annotate false true x.1 x.2) kept)
    with (List.map (fun x : str * row => with_link x.2) kept).
  rewrite filter_with_link, filter_snd_tagged, Hkeys. unfold expected.
  destruct (bool_decide _); [done|].
  by rewrite map_take, <- filter_snd_tagged, tagged_rows.
Qed.

Lemma collect_matched_dois_elem (matched_rows : list row) (m : row) :
  In m matched_rows -> Py.text (Py.get m doi_column) <> [] ->
  Py.get m doi_column ∈ collect_matched_dois matched_rows.
Proof.
  intros Hin Hne. unfold collect_matched_dois.
  assert (Hgrow : forall rs (acc : gset cell) k,
    k ∈ acc ->
    k ∈ fold_left
          (fun dois r =>
             let doi := Py.get r (lit "DOI") in
             if Py.truthy (Py.text doi) then {[doi]} ∪ dois else dois)
          rs acc).
  { induction rs as [|r rs IH]; intros acc k Hk; simpl; [done|].
    apply IH. destruct (Py.truthy _); set_solver. }
  generalize (∅ : gset cell).
  induction matched_rows as [|r rs IH]; intros acc; simpl; [done|].
  destruct Hin as [->|Hin]; [|by apply IH].
  apply Hgrow. fold doi_column.
  apply truthy_nonempty in Hne. rewrite Hne. set_solver.
Qed.

(** C5: no row of the merged unmatched table has its [DOI] in the
    exclusion set; with the set [main] collects from the merged matched
    table, no row of it has the non-empty [DOI] of a matched row. *)
Theorem merged_unmatched_excludes :
  (forall (exclude_keys : gset cell) (partitions : list csv_file),
      Forall (fun r => Py.get r doi_column ∉ exclude_keys)
             (merge_unmatched exclude_keys partitions))
  /\ (forall (matched_rows : list row) (partitions : list csv_file),
        Forall (fun r =>
                  Forall (fun m => Py.text (Py.get m doi_column) = []
                                   \/ Py.get r doi_column <> Py.get m doi_column)
                         matched_rows)
               (merge_unmatched (collect_matched_dois matched_rows)
                  partitions)).
Proof.
  assert (Hex : forall (X : gset cell) ps,
            Forall (fun r => Py.get r doi_column ∉ X) (merge_unmatched X ps)).
  { intros X ps. apply List.Forall_forall. intros r Hin Hx.
    assert (Hr : r ∈ filter (has_doi (Py.get r doi_column))
                       (merge_unmatched X ps))
      by (apply list_elem_of_filter; split; [done|by apply list_elem_of_In]).
    rewrite merge_unmatched_key in Hr.
    rewrite bool_decide_eq_true_2 in Hr by done.
    by apply not_elem_of_nil in Hr. }
  split; [exact Hex|]. intros ms ps.
  eapply List.Forall_impl; [|apply Hex]. simpl. intros r Hr.
  apply List.Forall_forall. intros m Hm.
  destruct (decide (Py.text (Py.get m doi_column) = [])) as [|Hne];
    [by left|right].
  intros Heq. apply Hr. rewrite Heq. by apply collect_matched_dois_elem.
Qed.

(** C6: when [r] is the first row read with an identifier that is not
    excluded, the merged unmatched table has exactly one row with that
    identifier, [r] with its link, whatever the partitions merged later
    hold. *)
Theorem merged_unmatched_first_seen
    (exclude_keys : gset cell) (earlier later : list csv_file)
    (f : csv_file) (before after : list row) (r : row) :
  rows f = before ++ r :: after ->
  Py.get r doi_column ∉ exclude_keys ->
  Forall (fun r' => Py.get r' doi_column <> Py.get r doi_column)
         (rows_read earlier ++ before) ->
  filter (has_doi (Py.get r doi_column))
         (merge_unmatched exclude_keys (earlier ++ f :: later))
  = [with_link r].
Proof.
  intros Hrows Hex Hfirst. rewrite merge_unmatched_key.
  rewrite bool_decide_eq_false_2 by done.
  unfold rows_read in *. rewrite flat_map_app. simpl. rewrite Hrows.
  rewrite <- !app_assoc, app_assoc, filter_app.
  assert (Hnone : filter (has_doi (Py.get r doi_column))
                    (List.flat_map rows earlier ++ before) = []).
  { induction Hfirst as [|x l Hx _ IH]; [done|].
    by rewrite filter_cons_False. }
  rewrite Hnone. simpl. by rewrite filter_cons_True.
Qed.

End UnmatchedMerge.

(** ** Concrete partitions *)
Section MergeExamples.

Lemma merged_unmatched_first_seen_witness :
  filter (fun r : row => Py.get r doi_column = Some (lit "10.1111/x"))
         (merge_unmatched ∅ [part_a; part_b])
  = [with_link (doi_row "10.1111/x" "read from A")]
  /\ filter (fun r : row => Py.get r doi_column = Some (lit "10.1111/x"))
            (merge_unmatched ∅ [part_b; part_a])
     = [with_link (doi_row "10.1111/x" "read from B")].
Proof.
  split.
  - apply (merged_unmatched_first_seen ∅ [] [part_b] part_a [] []
             (doi_row "10.1111/x" "read from A")).
    + reflexivity.
    + apply not_elem_of_empty.
    + constructor.
  - apply (merged_unmatched_first_seen ∅ [] [part_a] part_b
             [doi_row "10.1111/y" "another"] []
             (doi_row "10.1111/x" "read from B")).
    + reflexivity.
    + apply not_elem_of_empty.
    + repeat constructor. discriminate.
Defined.

(** C10 (failing input): a partition with the header [Title,DOI] and the
    lines [a,], [b], [c,] and [d].  The rows [a] and [c] have an empty
    identifier, the rows [b] and [d] have none, their line being short.
    Under deduplication the rows [a] and [b] are both kept, the empty text
    and [None] being two keys; both are written with an empty identifier. *)
Theorem missing_cell_kept_beside_empty_cell :
  let lines :=
    CsvFile (lit "J_unmatched") [title; doi_column]
      [empty_doi_row "a"; short_row "b"; empty_doi_row "c"; short_row "d"]
      false in
  merge_unmatched ∅ [lines]
  = [with_link (empty_doi_row "a"); with_link (short_row "b")]
  /\ List.map (fun r : row => Py.get r doi_column) (merge_unmatched ∅ [lines])
     = [Some []; None]
  /\ merge_written (merge_csv_files false true true doi_column ∅ [lines])
     = Some (Some ([title; doi_column; lit "DOI_Download_Link"],
                   [[lit "a"; []; []]; [lit "b"; []; []]])).
Proof. repeat split; reflexivity. Qed.

End MergeExamples.

(** ** Duplicate detection over a column *)
Section DuplicateFacts.

Variables (column : str) (keep_numbers : bool).

(** Rows with an empty cell add nothing to the counts. *)
Lemma value_counts_skips_empty (records : list row) :
  value_counts column keep_numbers
    (List.filter (fun r => Py.truthy (Py.text (Py.get r column))) records)
  = value_counts column keep_numbers records.
Proof.
  unfold value_counts. generalize (@nil (str * nat)).
  induction records as [|r records IH]; intros acc; simpl; [done|].
  destruct (Py.truthy (Py.text (Py.get r column))) eqn:E; simpl.
  - by rewrite IH.
  - rewrite IH. unfold count_step. by rewrite E.
Qed.

End DuplicateFacts.

(** C9 (failing input): with three rows whose [Title] is empty, [123] and
    [456], digits dropped, the two numeric titles share the empty
    normalized value; the line reported for them quotes the cell of the
    first row, the empty one, where without that row it quotes ["123"]. *)
Theorem check_duplicates_reports_empty_cell :
  check_duplicates_in_csv title false
    [empty_title_row; title_row "123"; title_row "456"]
  = Some [duplicate_line [] 2]
  /\ check_duplicates_in_csv title false [title_row "123"; title_row "456"]
     = Some [duplicate_line (lit "123") 2]
  /\ duplicate_line [] 2 <> duplicate_line (lit "123") 2.
Proof. split; [reflexivity | split; [reflexivity | discriminate]]. Qed.

(** ** Scenarios *)
Section Scenarios.

Example normalize_text_punctuation :
  normalize_text (lit "A. B. Study!") true = lit "abstudy"
  /\ normalize_text (lit "ab study") true = lit "abstudy"
  /\ normalize_text (lit "isj.12026") false = lit "isj12026".
Proof. repeat split; reflexivity. Qed.

(** The Kelvin sign lowers to [k] and survives; [É] lowers to [é] and goes. *)
Example normalize_text_beyond_ascii :
  normalize_text [8490; 201; 98] true = lit "kb".
Proof. reflexivity. Qed.

Example remove_isr_encoding_runs :
  remove_isr_encoding (lit "Title#x3a;Subtitle") = lit "TitleSubtitle"
  /\ remove_isr_encoding (lit "a#x;b#xZ1;c#x22") = lit "a#x;b#xZ1;c#x22".
Proof. split; reflexivity. Qed.

Example extract_title_year_patterns :
  extract_title_from_pdf_name ascii_decimal (lit "Study_2021_DSS") true
  = lit "Study"
  /\ extract_title_from_pdf_name ascii_decimal (lit "A_1999_B_2021_DSS") true
     = lit "A"
  /\ extract_title_from_pdf_name ascii_decimal (lit "Study_2021") true
     = lit "Study"
  /\ extract_title_from_pdf_name ascii_decimal (lit "Study_20211_DSS") true
     = lit "Study_20211_DSS"
  /\ extract_title_from_pdf_name ascii_decimal (lit "Study_2021_DSS") false
     = lit "Study_2021_DSS".
Proof. repeat split; reflexivity. Qed.

(** A file named by year and journal is matched by the start of the title. *)
Example scenario_title :
  match_pdfs_to_records ascii_decimal title false false true
    [(lit "Study_2021_DSS", lit "DSS/Study_2021_DSS.pdf")]
    [title_row "Study of Something 2021"]
  = MatchResult [(0%nat, lit "DSS/Study_2021_DSS.pdf")] [] [].
Proof. reflexivity. Qed.

(** A file named by the tail of its identifier is matched on the identifier. *)
Example scenario_identifier :
  match_pdfs_to_records ascii_decimal doi_column true false false
    [(lit "isj.12026", lit "ISJ/isj.12026.pdf")]
    [doi_row "10.1111/isj.12026" "A study"]
  = MatchResult [(0%nat, lit "ISJ/isj.12026.pdf")] [] [].
Proof. reflexivity. Qed.

(** A file name with a character reference is matched once it is stripped. *)
Example scenario_encoding :
  match_pdfs_to_records ascii_decimal title false true false
    [(lit "Title#x3a;Subtitle", lit "ISR/t.pdf")]
    [title_row "Title: Subtitle"]
  = MatchResult [(0%nat, lit "ISR/t.pdf")] [] [].
Proof. reflexivity. Qed.

(** Keys that are prefixes of one another both match: the row is ambiguous. *)
Example scenario_nested_keys :
  match_pdfs_to_records ascii_decimal title false false false
    [(lit "Trust", lit "1.pdf"); (lit "Trust in Teams", lit "2.pdf")]
    [title_row "Trust in teams: a study"]
  = MatchResult [] [] [(0%nat, [lit "1.pdf"; lit "2.pdf"])].
Proof. reflexivity. Qed.

(** Excluded, duplicated and empty identifiers in one merge. *)
Example scenario_merge :
  List.map (fun r => Py.get r doi_column)
    (merge_unmatched {[ Some (lit "10.1111/y") ]}
       [part_a; part_b;
        CsvFile (lit "C_unmatched") [title]
          [title_row "no identifier"; title_row "none either"] false])
  = [Some (lit "10.1111/x"); Some []].
Proof. reflexivity. Qed.

End Scenarios.

(** * Further properties *)

(** ** Normalization *)
Section NormalizeFacts.

Lemma normalize_text_filter (text : str) (b : bool) :
  normalize_text text b = List.filter (kept_class b) (lower text).
Proof. destruct text; [done|]. unfold normalize_text. by destruct b. Qed.

Lemma kept_class_az09 (b : bool) (c : N) :
  kept_class b c = true -> is_az09 c = true.
Proof.
  destruct b; simpl; [|done]. unfold is_az09. intros ->. done.
Qed.

Lemma in_range_spec (lo hi c : N) :
  in_range lo hi c = true <-> lo <= c <= hi.
Proof. unfold in_range. rewrite andb_true_iff, !N.leb_le. done. Qed.

Lemma lower_char_kept (c : N) : is_az09 c = true -> lower_char c = [c].
Proof.
  unfold is_az09, is_az, is_09. rewrite orb_true_iff, !in_range_spec.
  intros H. unfold lower_char.
  destruct (in_range 65 90 c) eqn:E; [apply in_range_spec in E; lia|].
  destruct (N.eqb_spec c 304); [lia|]. destruct (N.eqb_spec c 8490); [lia|done].
Qed.

Lemma lower_kept (s : str) :
  List.Forall (fun c => is_az09 c = true) s -> lower s = s.
Proof.
  unfold lower. induction 1 as [|c s Hc _ IH]; simpl; [done|].
  by rewrite lower_char_kept, IH.
Qed.

Lemma filter_kept_twice (b b' : bool) (l : str) :
  List.filter (kept_class b') (List.filter (kept_class b) l)
  = List.filter (kept_class (b || b')) l.
Proof.
  induction l as [|c l IH]; simpl; [done|].
  assert (H : kept_class (b || b') c = kept_class b c && kept_class b' c).
  { destruct b, b'; simpl; unfold is_az09; destruct (is_az c), (is_09 c); done. }
  rewrite H. destruct (kept_class b c); simpl; [|done].
  rewrite IH. by destruct (kept_class b' c).
Qed.

Lemma normalize_text_app (s t : str) (b : bool) :
  normalize_text (s ++ t) b = normalize_text s b ++ normalize_text t b.
Proof.
  rewrite !normalize_text_filter. unfold lower.
  by rewrite flat_map_app, List.filter_app.
Qed.

(** X1: normalizing a normalized text changes nothing; normalizing it with
    the other setting of the digit flag gives what dropping the digits in
    one go gives. *)
Theorem normalize_text_twice (text : str) (b b' : bool) :
  normalize_text (normalize_text text b) b' = normalize_text text (b || b').
Proof.
  rewrite (normalize_text_filter text b), (normalize_text_filter text (b || b')).
  rewrite normalize_text_filter, lower_kept; [apply filter_kept_twice|].
  apply List.Forall_forall. intros c Hc. apply filter_In in Hc as [_ Hc].
  by apply kept_class_az09 in Hc.
Qed.

(** X2: a normalized text holds lower-case ASCII letters only, and ASCII
    digits when they are retained. *)
Theorem normalize_text_alphabet (text : str) (remove_numbers : bool) :
  List.Forall
    (fun c => 97 <= c <= 122 \/ (remove_numbers = false /\ 48 <= c <= 57))
    (normalize_text text remove_numbers).
Proof.
  rewrite normalize_text_filter. apply List.Forall_forall. intros c Hc.
  apply filter_In in Hc as [_ Hc]. destruct remove_numbers; simpl in Hc.
  - left. by apply in_range_spec.
  - unfold is_az09, is_az, is_09 in Hc.
    rewrite orb_true_iff, !in_range_spec in Hc. destruct Hc; [by left|by right].
Qed.

(** X3: normalization goes through concatenation, so a text that starts
    with another normalizes to a key that starts with the other's key. *)
Theorem normalize_text_prefix (s t : str) (b : bool) :
  normalize_text (s ++ t) b = normalize_text s b ++ normalize_text t b
  /\ (s `prefix_of` t -> normalize_text s b `prefix_of` normalize_text t b).
Proof.
  split; [apply normalize_text_app|]. intros [k ->].
  rewrite normalize_text_app. by eexists.
Qed.

Lemma normalize_text_prefix_witness :
  normalize_text (lit "Study of Trust") true
  `prefix_of` normalize_text (lit "Study of Trust in Teams") true.
Proof.
  apply (proj2 (normalize_text_prefix (lit "Study of Trust")
                  (lit "Study of Trust in Teams") true)).
  by exists (lit " in Teams").
Defined.

End NormalizeFacts.

(** ** Decoding of file names *)
Section DecodeFacts.

Lemma re_sub_delete_sublist (m : str -> option nat) (skip : nat) (s : str) :
  re_sub_delete m skip s `sublist_of` s.
Proof.
  revert skip. induction s as [|c s IH]; intros skip; simpl; [done|].
  destruct skip as [|k]; [|by apply sublist_cons].
  destruct (m (c :: s)) as [[|k]|]; [by apply sublist_skip|by apply sublist_cons
                                    |by apply sublist_skip].
Qed.

Lemma isr_match_at_hash (c : N) (s : str) :
  c <> 35 -> isr_match_at (c :: s) = None.
Proof.
  intros Hc. unfold isr_match_at. destruct s as [|x r]; [done|].
  destruct (N.eqb_spec c 35); done.
Qed.

Lemma remove_isr_encoding_app_plain (a s : str) :
  List.Forall (fun c => c <> 35) a ->
  remove_isr_encoding (a ++ s) = a ++ remove_isr_encoding s.
Proof.
  unfold remove_isr_encoding. induction 1 as [|c a Hc _ IH]; [done|].
  cbn [app re_sub_delete]. by rewrite isr_match_at_hash, IH.
Qed.

Lemma re_sub_delete_cons (m : str -> option nat) (c : N) (r : str) :
  re_sub_delete m O (c :: r)
  = match m (c :: r) with
    | Some (S k) => re_sub_delete m k r
    | _ => c :: re_sub_delete m O r
    end.
Proof. done. Qed.

Lemma re_sub_delete_skip (m : str -> option nat) (l s : str) :
  re_sub_delete m (length l) (l ++ s) = re_sub_delete m O s.
Proof. induction l as [|c l IH]; simpl; done. Qed.

Lemma span_hex_run (h s : str) :
  List.Forall (fun c => is_hex c = true) h ->
  span_hex (h ++ 59 :: s) = (length h, 59 :: s).
Proof.
  induction 1 as [|c h Hc _ IH]; simpl; [done|]. by rewrite Hc, IH.
Qed.

(** X4: stripping the encoding only deletes characters, it adds and moves
    none; a name without [#] is returned as it is. *)
Theorem remove_isr_encoding_deletes_only (filename : str) :
  remove_isr_encoding filename `sublist_of` filename
  /\ (List.Forall (fun c => c <> 35) filename ->
      remove_isr_encoding filename = filename).
Proof.
  split; [apply re_sub_delete_sublist|]. intros H.
  rewrite <- (app_nil_r filename) at 1.
  rewrite (remove_isr_encoding_app_plain filename [] H). by rewrite app_nil_r.
Qed.

Lemma remove_isr_encoding_deletes_only_witness :
  remove_isr_encoding (lit "Plain title") = lit "Plain title".
Proof.
  apply (proj2 (remove_isr_encoding_deletes_only (lit "Plain title"))).
  repeat constructor; discriminate.
Defined.

(** X5: after text without [#], the run [#x], one or more hexadecimal
    digits and [;] is deleted whole, and stripping goes on behind it. *)
Theorem remove_isr_encoding_drops_run (a h rest : str) :
  List.Forall (fun c => c <> 35) a ->
  h <> [] -> List.Forall (fun c => is_hex c = true) h ->
  remove_isr_encoding (a ++ lit "#x" ++ h ++ lit ";" ++ rest)
  = a ++ remove_isr_encoding rest.
Proof.
  intros Ha Hne Hh. rewrite (remove_isr_encoding_app_plain _ _ Ha). f_equal.
  unfold remove_isr_encoding.
  change (lit "#x" ++ h ++ lit ";" ++ rest) with (35 :: 120 :: h ++ 59 :: rest).
  assert (Hm : isr_match_at (35 :: 120 :: h ++ 59 :: rest)
               = Some (S (length ((120 :: h) ++ [59])))).
  { unfold isr_match_at. rewrite (span_hex_run _ _ Hh).
    destruct h as [|c h]; [done|]. simpl. rewrite length_app. simpl.
    do 4 f_equal. }
  rewrite re_sub_delete_cons, Hm.
  replace (120 :: h ++ 59 :: rest) with (((120 :: h) ++ [59]) ++ rest)
    by (simpl; by rewrite <- app_assoc).
  exact (re_sub_delete_skip isr_match_at ((120 :: h) ++ [59]) rest).
Qed.

Lemma remove_isr_encoding_drops_run_witness :
  remove_isr_encoding (lit "Title" ++ lit "#x" ++ lit "3a" ++ lit ";"
                       ++ lit "Subtitle")
  = lit "Title" ++ remove_isr_encoding (lit "Subtitle").
Proof.
  apply remove_isr_encoding_drops_run.
  - repeat constructor; discriminate.
  - discriminate.
  - repeat constructor.
Defined.

Lemma re_search_head (m : str -> bool) (s : str) (i : nat) (c0 : N) :
  (forall t, m t = true -> exists r, t = c0 :: r) ->
  re_search m s = Some i -> In c0 s.
Proof.
  intros Hm H. apply re_search_Some in H as (H & _ & _).
  apply Hm in H as [r Hr].
  apply list_elem_of_In. rewrite <- (take_drop i s), Hr.
  apply elem_of_app. right. by left.
Qed.

(** X6: title decoding returns a prefix of the name, whatever the digit
    table is, and the whole name when it holds no underscore. *)
Theorem extract_title_is_prefix (unicode_decimal : N -> bool)
    (pdf_name : str) (has_year_pattern : bool) :
  extract_title_from_pdf_name unicode_decimal pdf_name has_year_pattern
    `prefix_of` pdf_name
  /\ (~ In 95 pdf_name ->
      extract_title_from_pdf_name unicode_decimal pdf_name has_year_pattern
      = pdf_name).
Proof.
  unfold extract_title_from_pdf_name. split.
  - destruct has_year_pattern; [|done].
    destruct (re_search _ pdf_name); [apply prefix_take|].
    destruct (re_search _ pdf_name); [apply prefix_take|done].
  - intros Hno. destruct has_year_pattern; [|done].
    destruct (re_search (year_mid_at _) pdf_name) as [i|] eqn:E1.
    { exfalso. apply Hno. apply (re_search_head _ _ _ 95) in E1; [done|].
      intros [|u [|a [|b [|c [|d [|v t]]]]]] Ht; try done.
      simpl in Ht. rewrite !andb_true_iff, !N.eqb_eq in Ht.
      destruct Ht as [[-> _] _]. by eexists. }
    destruct (re_search (year_end_at _) pdf_name) as [i|] eqn:E2; [|done].
    exfalso. apply Hno. apply (re_search_head _ _ _ 95) in E2; [done|].
    intros [|u [|a [|b [|c [|d t]]]]] Ht; try done.
    simpl in Ht. rewrite !andb_true_iff, !N.eqb_eq in Ht.
    destruct Ht as [[-> _] _]. by eexists.
Qed.

Lemma extract_title_is_prefix_witness :
  extract_title_from_pdf_name ascii_decimal (lit "Trust 2021") true
  = lit "Trust 2021".
Proof.
  apply (proj2 (extract_title_is_prefix ascii_decimal (lit "Trust 2021") true)).
  intros H. repeat (destruct H as [H|H]; [discriminate H|]). destruct H.
Defined.

(** X7: identifier decoding is idempotent, and its result always ends with
    the name it was given. *)
Theorem extract_doi_from_pdf_name_idempotent (pdf_name : str) :
  extract_doi_from_pdf_name (extract_doi_from_pdf_name pdf_name)
  = extract_doi_from_pdf_name pdf_name
  /\ pdf_name `suffix_of` extract_doi_from_pdf_name pdf_name.
Proof.
  assert (Hfull : forall s, extract_doi_from_pdf_name (doi_resolver_prefix ++ s)
                            = doi_resolver_prefix ++ s) by done.
  assert (Hcases : extract_doi_from_pdf_name pdf_name
                   = doi_resolver_prefix ++ pdf_name
                   \/ extract_doi_from_pdf_name pdf_name = pdf_name).
  { unfold extract_doi_from_pdf_name.
    destruct (startswith pdf_name isj_prefix); [by left|].
    destruct (startswith pdf_name issn_prefix); [by left|].
    right. by destruct (startswith pdf_name doi_prefix). }
  destruct Hcases as [H|H]; rewrite H.
  - split; [apply Hfull | by eexists].
  - split; [done | by exists []].
Qed.

End DecodeFacts.

(** ** Dictionaries filled by a loop *)
Section OrderedDictFacts.
Context {K V : Type} `{EqDecision K}.
Implicit Types (d : list (K * V)) (f : option V -> V).

Lemma od_lookup_upsert_eq k f d :
  od_lookup k (Py.upsert k f d) = Some (f (od_lookup k d)).
Proof.
  induction d as [|[k' v] d IH]; simpl; [by rewrite decide_True|].
  destruct (decide (k' = k)) as [->|Hne]; simpl.
  - by rewrite decide_True.
  - by rewrite decide_False.
Qed.

Lemma od_lookup_upsert_ne k k' f d :
  k' <> k -> od_lookup k' (Py.upsert k f d) = od_lookup k' d.
Proof.
  intros Hne. induction d as [|[k0 v] d IH]; simpl; [by rewrite decide_False|].
  destruct (decide (k0 = k)) as [->|Hk]; simpl.
  - by rewrite !decide_False.
  - by rewrite IH.
Qed.

Lemma upsert_key_inv k f d x :
  In x (List.map fst (Py.upsert k f d)) -> x = k \/ In x (List.map fst d).
Proof.
  induction d as [|[k' v] d IH]; simpl; [intros [<-|[]]; by left|].
  destruct (decide (k' = k)) as [->|Hne]; simpl; [tauto|].
  intros [<-|H]; [right; by left|]. destruct (IH H); tauto.
Qed.

Lemma upsert_keys_NoDup k f d :
  NoDup (List.map fst d) -> NoDup (List.map fst (Py.upsert k f d)).
Proof.
  induction d as [|[k' v] d IH]; simpl; [intros _; apply NoDup_singleton|].
  intros [Hk' Hnd]%NoDup_cons.
  destruct (decide (k' = k)) as [->|Hne]; simpl; apply NoDup_cons;
    (split; [|auto]); [done|].
  intros Hin%list_elem_of_In. apply upsert_key_inv in Hin as [->|Hin]; [done|].
  by apply Hk', list_elem_of_In.
Qed.

Lemma od_lookup_In k v d :
  NoDup (List.map fst d) -> In (k, v) d <-> od_lookup k d = Some v.
Proof.
  induction d as [|[k' v'] d IH]; simpl; [done|]. intros Hnd.
  apply NoDup_cons in Hnd as [Hk' Hnd].
  destruct (decide (k' = k)) as [->|Hne].
  - split; [|intros [= ->]; by left]. intros [[= ->]|Hin]; [done|].
    exfalso. apply Hk', list_elem_of_In, in_map_iff. by exists (k, v).
  - rewrite <- (IH Hnd). split; [intros [[= -> ->]|H]; done | by right].
Qed.

Lemma od_lookup_Some_In k v d : od_lookup k d = Some v -> In (k, v) d.
Proof.
  induction d as [|[k' v'] d IH]; simpl; [done|].
  destruct (decide (k' = k)) as [->|Hne]; [intros [= ->]; by left|].
  intros H. right. by apply IH.
Qed.

End OrderedDictFacts.

Section Grouping.
Context {A K V : Type} `{EqDecision K}.
Variables (key : A -> K) (op : V -> A -> V) (e : V).

Local Abbreviation group_step := (group_step key op e).

Lemma group_fold_lookup (xs : list A) (d : list (K * V)) (k : K) :
  od_lookup k (fold_left group_step xs d)
  = match filter (fun x => key x = k) xs with
    | [] => od_lookup k d
    | l => Some (fold_left op l (default e (od_lookup k d)))
    end.
Proof.
  revert d. induction xs as [|x xs IH]; intros d; [done|].
  cbn [fold_left]. rewrite IH, filter_cons.
  destruct (decide (key x = k)) as [<-|Hne].
  - unfold group_step. rewrite od_lookup_upsert_eq.
    by destruct (filter _ xs).
  - unfold group_step. by rewrite od_lookup_upsert_ne.
Qed.

Lemma group_fold_NoDup (xs : list A) (d : list (K * V)) :
  NoDup (List.map fst d) -> NoDup (List.map fst (fold_left group_step xs d)).
Proof.
  revert d. induction xs as [|x xs IH]; intros d Hd; [done|].
  apply IH. by apply upsert_keys_NoDup.
Qed.

Lemma group_fold_In (xs : list A) (k : K) (v : V) :
  In (k, v) (fold_left group_step xs [])
  <-> filter (fun x => key x = k) xs <> []
      /\ v = fold_left op (filter (fun x => key x = k) xs) e.
Proof.
  rewrite od_lookup_In by (apply group_fold_NoDup; constructor).
  rewrite group_fold_lookup. simpl.
  destruct (filter _ xs) as [|y l]; [split; [done|by intros [[] _]]|].
  split; [by intros [= <-] | by intros [_ ->]].
Qed.

End Grouping.

(** A list has no two elements of one key exactly when every key selects
    at most one element. *)
Lemma NoDup_map_filter {A K} `{EqDecision K} (f : A -> K) (l : list A) :
  NoDup (List.map f l)
  <-> forall k, (length (filter (fun x => f x = k) l) <= 1)%nat.
Proof.
  induction l as [|x l IH]; simpl.
  - split; [intros _ k; simpl; lia | intros _; constructor].
  - rewrite NoDup_cons, IH. split.
    + intros [Hx Hl] k. rewrite filter_cons.
      destruct (decide (f x = k)) as [<-|Hne]; [|apply Hl].
      destruct (filter (fun y => f y = f x) l) as [|y l'] eqn:E; [simpl; lia|].
      exfalso. apply Hx.
      assert (Hy : y ∈ filter (fun y => f y = f x) l) by (rewrite E; by left).
      apply list_elem_of_filter in Hy as [<- Hy].
      apply list_elem_of_In, in_map. by apply list_elem_of_In.
    + intros H. split.
      * intros Hx%list_elem_of_In. apply in_map_iff in Hx as (y & Hy & Hin).
        specialize (H (f x)). rewrite filter_cons, decide_True in H by done.
        assert (Hy' : y ∈ filter (fun y => f y = f x) l)
          by (apply list_elem_of_filter; split; [done|by apply list_elem_of_In]).
        destruct (filter (fun y => f y = f x) l); [by apply not_elem_of_nil in Hy'|].
        simpl in H. lia.
      * intros k. specialize (H k). rewrite filter_cons in H.
        destruct (decide (f x = k)); simpl in H; lia.
Qed.

Lemma flat_map_nil_iff {A B} (f : A -> list B) (l : list A) :
  List.flat_map f l = [] <-> forall x, In x l -> f x = [].
Proof.
  induction l as [|x l IH]; simpl; [split; [intros _ ? []|done]|].
  split.
  - intros H. apply app_eq_nil in H as [Hx Hl].
    intros y [<-|Hy]; [done|]. by apply IH.
  - intros H. rewrite (H x) by (by left). simpl. apply IH. intros y Hy.
    apply H. by right.
Qed.

(** What [mapM] and [concat] make of a loop that appends the lines of each
    item and stops at the first item that raises. *)
Lemma mapM_concat {A B} (f : A -> option (list B)) (l : list A)
    (ls : list (list B)) :
  Forall2 (fun x y => f x = Some y) l ls ->
  (forall x, In x l -> exists y, f x = Some y)
  /\ (forall b, In b (List.concat ls)
                <-> exists x y, In x l /\ f x = Some y /\ In b y).
Proof.
  induction 1 as [|x y l ls Hxy _ [IH1 IH2]]; simpl.
  - split; [intros ? []|]. intros b. split; [done|by intros (? & ? & [] & _)].
  - split.
    + intros x' [<-|Hx']; [by exists y | by apply IH1].
    + intros b. rewrite in_app_iff, IH2. split.
      * intros [Hb|(x' & y' & Hx' & Hy' & Hb)];
          [exists x, y | exists x', y']; auto.
      * intros (x' & y' & [<-|Hx'] & Hy' & Hb).
        -- left. congruence.
        -- right. by exists x', y'.
Qed.

Lemma mapM_concat_nil {A B} (f : A -> option (list B)) (l : list A) :
  (forall x, In x l -> f x = Some []) ->
  @List.concat B <$> mapM f l = Some [].
Proof.
  induction l as [|x l IH]; intros H; [done|].
  assert (Hl : @List.concat B <$> mapM f l = Some [])
    by (apply IH; intros; apply H; by right).
  apply fmap_Some in Hl as (ls & Hls & Hnil).
  cbn. rewrite (H x) by (by left). cbn. rewrite Hls. cbn. by rewrite <- Hnil.
Qed.

(** ** What the duplicate checks report *)
Section CsvDuplicates.
Variables (column : str) (keep_numbers : bool).

Local Abbreviation cell_key :=
  (fun r : row =>
     normalize_text (Py.text (Py.get r column)) (negb keep_numbers)).
Local Abbreviation filled :=
  (List.filter (fun r : row => Py.truthy (Py.text (Py.get r column)))).
Local Abbreviation counts := (value_counts column keep_numbers).
Local Abbreviation occurrences := (occurrences column keep_numbers).
Local Abbreviation first_cell := (first_cell column keep_numbers).
Local Abbreviation check := (check_duplicates_in_csv column keep_numbers).

(** The lines one entry of the counts gives, or [None] when it raises. *)
Local Abbreviation lines_of records :=
  (fun '(value, count) =>
     if (1 <? count)%nat
     then first_line column keep_numbers records value count
     else Some []).

Lemma value_counts_group (records : list row) :
  counts records
  = fold_left (group_step cell_key (fun (n : nat) (_ : row) => S n) O)
      (filled records) [].
Proof.
  unfold value_counts. generalize (@nil (str * nat)).
  induction records as [|r records IH]; intros acc; simpl; [done|].
  rewrite IH. unfold count_step.
  by destruct (Py.truthy (Py.text (Py.get r column))).
Qed.

Lemma fold_count {A} (l : list A) (n : nat) :
  fold_left (fun (n : nat) (_ : A) => S n) l n = (length l + n)%nat.
Proof.
  revert n. induction l as [|x l IH]; intros n; simpl; [done|].
  rewrite IH. lia.
Qed.

Lemma value_counts_In (records : list row) (k : str) (n : nat) :
  In (k, n) (counts records) <-> n = occurrences records k /\ n <> O.
Proof.
  rewrite value_counts_group, group_fold_In, fold_count. unfold occurrences.
  destruct (filter _ (filled records)); simpl; split; intros [H1 H2];
    (split; [done || lia | done || lia]).
Qed.

(** The lookup of a line finds the first record of the key; it raises on
    a cell that is [None]. *)
Lemma first_line_cell (records : list row) (k : str) (n : nat) :
  first_line column keep_numbers records k n
  = match first_cell records k with
    | None => Some []
    | Some None => None
    | Some (Some orig_text) => Some [duplicate_line orig_text n]
    end.
Proof.
  unfold first_cell.
  induction records as [|r records IH]; [done|]. cbn.
  destruct (decide (cell_key r = k)) as [Hk|Hk]; [done|].
  rewrite IH. by destruct (list_find _ records) as [[i r']|].
Qed.

Lemma filled_key_In (records : list row) (k : str) :
  occurrences records k <> O -> exists r, In r records /\ cell_key r = k.
Proof.
  unfold occurrences.
  destruct (filter _ (filled records)) as [|r l] eqn:E; [done|]. intros _.
  assert (Hr : r ∈ filter (fun r : row => cell_key r = k) (filled records))
    by (rewrite E; by left).
  apply list_elem_of_filter in Hr as [Hk Hr].
  apply list_elem_of_In, filter_In in Hr as [Hr _]. by exists r.
Qed.

Lemma first_cell_occurs (records : list row) (k : str) :
  occurrences records k <> O -> is_Some (first_cell records k).
Proof.
  intros (r & Hr & Hk)%filled_key_In. unfold first_cell.
  apply fmap_is_Some.
  apply (list_find_elem_of _ records r); [by apply list_elem_of_In | done].
Qed.


Lemma check_Some (records : list row) (lines : list str) :
  check records = Some lines
  <-> exists ls,
        Forall2 (fun x y => lines_of records x = Some y) (counts records) ls
        /\ lines = List.concat ls.
Proof.
  unfold check_duplicates_in_csv. rewrite fmap_Some.
  by setoid_rewrite mapM_Some.
Qed.

(** X8: the check of a column reports nothing exactly when the non-empty
    cells of the column normalize to pairwise different values. *)
Theorem check_duplicates_in_csv_silent (records : list row) :
  check_duplicates_in_csv column keep_numbers records = Some []
  <-> NoDup (normalized_cells column keep_numbers records).
Proof.
  unfold normalized_cells. rewrite NoDup_map_filter. split.
  - intros (ls & Hls & Hnil)%check_Some k. fold (occurrences records k).
    destruct (Nat.le_gt_cases (occurrences records k) 1) as [|Hgt]; [done|].
    exfalso. apply mapM_concat in Hls as [Hall Hin]. rewrite <- Hnil in Hin.
    destruct (Hall (k, occurrences records k)) as (y & Hy).
    { apply value_counts_In. split; [done|lia]. }
    assert (Hk : In (k, occurrences records k) (counts records))
      by (apply value_counts_In; split; [done|lia]).
    simpl in Hy. rewrite (proj2 (Nat.ltb_lt _ _) Hgt), first_line_cell in Hy.
    destruct (first_cell_occurs records k) as [c Hc]; [lia|].
    rewrite Hc in Hy. destruct c as [orig_text|]; [|done]. clear Hy.
    apply (Hin (duplicate_line orig_text (occurrences records k))).
    eexists (k, _), _. split; [exact Hk|].
    split;
      [by rewrite (proj2 (Nat.ltb_lt _ _) Hgt), first_line_cell, Hc
      |by left].
  - intros H. unfold check_duplicates_in_csv. apply mapM_concat_nil.
    intros [k n] Hin. apply value_counts_In in Hin as [-> _].
    specialize (H k). fold (occurrences records k) in H.
    by rewrite (proj2 (Nat.ltb_ge _ _) H).
Qed.


End CsvDuplicates.

Section FileDuplicates.
Variable repr : str -> str.
Variable keep_numbers : bool.

Local Abbreviation name_key :=
  (fun f : str * path => normalize_text f.1 (negb keep_numbers)).
Local Abbreviation same_name := (same_name_files keep_numbers).

Lemma fold_append (l acc : list (str * path)) :
  fold_left (fun (g : list (str * path)) x => g ++ [(x.1, x.2)]) l acc
  = acc ++ l.
Proof.
  revert acc. induction l as [|[n p] l IH]; intros acc; simpl;
    [by rewrite app_nil_r|].
  by rewrite IH, <- app_assoc.
Qed.

Lemma name_counts_In (files : list (str * path)) (k : str)
    (items : list (str * path)) :
  In (k, items) (name_counts keep_numbers files)
  <-> items = same_name k files /\ items <> [].
Proof.
  unfold name_counts.
  change (name_step keep_numbers)
    with (group_step name_key
            (fun (g : list (str * path)) x => g ++ [(x.1, x.2)]) []).
  rewrite group_fold_In, fold_append. simpl. unfold same_name_files.
  split; [intros [H ->]; by split | intros [-> H]; by split].
Qed.

(** X10: the check of the file names reports a line exactly for every
    normalized name that two or more files share, and the line is made of
    that normalized name and of these files' names in the order of the file
    set. *)
Theorem check_duplicates_in_files_lines (files : list (str * path))
    (line : str) :
  In line (check_duplicates_in_files repr keep_numbers files)
  <-> exists k,
        (2 <= length (same_name k files))%nat
        /\ line = group_line repr k (same_name k files).
Proof.
  unfold check_duplicates_in_files. rewrite in_flat_map. split.
  - intros ([k items] & Hin & Hline). apply name_counts_In in Hin as [-> _].
    destruct (1 <? length (same_name k files))%nat eqn:E; [|destruct Hline].
    apply Nat.ltb_lt in E. destruct Hline as [<-|[]]. by exists k.
  - intros (k & Hlen & ->). exists (k, same_name k files). split.
    + apply name_counts_In. split; [done|].
      destruct (same_name k files); [simpl in Hlen; lia|done].
    + rewrite (proj2 (Nat.ltb_lt _ _)) by lia. by left.
Qed.

(** X11: the check of the file names reports nothing exactly when the names
    normalize to pairwise different values. *)
Theorem check_duplicates_in_files_silent (files : list (str * path)) :
  check_duplicates_in_files repr keep_numbers files = []
  <-> NoDup (List.map name_key files).
Proof.
  unfold check_duplicates_in_files.
  rewrite flat_map_nil_iff, NoDup_map_filter. split.
  - intros H k. fold (same_name k files).
    destruct (Nat.le_gt_cases (length (same_name k files)) 1) as [|Hgt];
      [done|]. exfalso.
    assert (Hin : In (k, same_name k files) (name_counts keep_numbers files)).
    { apply name_counts_In. split; [done|].
      destruct (same_name k files); [simpl in Hgt; lia|done]. }
    specialize (H _ Hin). simpl in H.
    by rewrite (proj2 (Nat.ltb_lt _ _)) in H by lia.
  - intros H [k items] Hin. apply name_counts_In in Hin as [-> _].
    specialize (H k). fold (same_name k files) in H.
    by rewrite (proj2 (Nat.ltb_ge _ _) H).
Qed.

End FileDuplicates.

(** ** More on the outcome of matching *)
Section MatchFacts.

Variable unicode_decimal : N -> bool.
Variable match_column : str.
Variables use_doi use_special has_year : bool.

Local Abbreviation step := (match_step match_column use_doi).
Local Abbreviation run :=
  (match_pdfs_to_records unicode_decimal match_column
     use_doi use_special has_year).
Local Abbreviation key :=
  (pdf_normalized unicode_decimal use_doi use_special has_year).
Local Abbreviation pdf_map :=
  (pdf_normalized_map unicode_decimal use_doi use_special has_year).
Local Abbreviation hits :=
  (hits unicode_decimal use_doi use_special has_year).
Local Abbreviation candidates := (candidates match_column use_doi).
Local Abbreviation sound := (outcomes_sound match_column use_doi).
Local Abbreviation hit_count :=
  (hit_count unicode_decimal match_column use_doi use_special has_year).
Local Abbreviation decoded :=
  (decoded unicode_decimal use_doi use_special has_year).

Implicit Types (m : list (str * list (str * path))) (acc r : match_result)
  (records : list row) (pdf_files : list (str * path)).

Lemma upsert_In_inv {K V} `{EqDecision K} (k k' : K) (v v' : V)
    (d : list (K * V)) :
  In (k', v') (Py.upsert k (fun _ => v) d) ->
  (k', v') = (k, v) \/ In (k', v') d.
Proof.
  induction d as [|[k0 v0] d IH]; simpl; [intros [[= <- <-]|[]]; by left|].
  destruct (decide (k0 = k)) as [->|Hne]; simpl.
  - intros [[= <- <-]|H]; [by left | right; by right].
  - intros [H|H]; [right; by left|]. destruct (IH H); [by left|right; by right].
Qed.

Lemma step_sound m records acc i record :
  sound m records acc -> records !! i = Some record ->
  sound m records (step m acc (i, record)).
Proof.
  intros (Hm & Hu & Hmm) Hrec. unfold match_step.
  assert (Hnone : candidates m record = [] ->
            sound m records
              (MatchResult (matched acc) (unmatched acc ++ [i])
                 (multi_matched acc))).
  { intros Hc. split; [done|]. split; [|done]. simpl. intros j Hj.
    apply in_app_or in Hj as [Hj|[<-|[]]]; [by apply Hu|by exists record]. }
  assert (Hc : candidates m record
               = if Py.truthy (Py.text (Py.get record match_column))
                 then matching_pdfs m
                        (record_normalized use_doi
                           (Py.text (Py.get record match_column)))
                 else []) by done.
  destruct (Py.truthy (Py.text (Py.get record match_column))); simpl;
    [|by apply Hnone].
  destruct (matching_pdfs m _) as [|p [|q ps]] eqn:E; [by apply Hnone| |].
  - split; [|done]. simpl. intros j p' Hj.
    apply upsert_In_inv in Hj as [[= -> ->]|Hj]; [by exists record|by apply Hm].
  - split; [done|]. split; [done|]. simpl. intros j ps' Hj.
    apply in_app_or in Hj as [Hj|[[= <- <-]|[]]]; [by apply Hmm|].
    exists record. repeat split; [done..|simpl; lia].
Qed.

Lemma fold_sound m records items acc :
  List.Forall (fun item : nat * row => records !! item.1 = Some item.2) items ->
  sound m records acc -> sound m records (fold_left (step m) items acc).
Proof.
  intros Hitems. revert acc.
  induction Hitems as [|[i record] items Hi _ IH]; intros acc Hacc; [done|].
  simpl. apply IH. by apply step_sound.
Qed.

Lemma combine_seq_lookup {A} (l : list A) (n i : nat) (x : A) :
  In (i, x) (combine (seq n (length l)) l) ->
  (n <= i)%nat /\ l !! (i - n)%nat = Some x.
Proof.
  revert n. induction l as [|y l IH]; intros n; simpl; [done|].
  intros [[= <- <-]|H]; [by rewrite Nat.sub_diag|].
  apply IH in H as [Hle H]. split; [lia|].
  by replace (i - n)%nat with (S (i - S n)) by lia.
Qed.

Lemma enumerate_lookup records :
  List.Forall (fun item : nat * row => records !! item.1 = Some item.2)
    (Py.enumerate records).
Proof.
  apply List.Forall_forall. intros [i record] Hin.
  apply combine_seq_lookup in Hin as [_ H]. by rewrite Nat.sub_0_r in H.
Qed.

(** The result of a run holds nothing the records do not back. *)
Lemma run_sound pdf_files records :
  sound (pdf_map pdf_files) records (run pdf_files records).
Proof.
  apply fold_sound; [apply enumerate_lookup|]. by repeat split.
Qed.

Lemma hits_nil (item : str * path) : hits [] item = false.
Proof. unfold hits. by destruct (key item.1). Qed.

Lemma record_normalized_nil : record_normalized use_doi [] = [].
Proof. unfold record_normalized. by destruct use_doi. Qed.

Lemma filter_all_false {A} (f : A -> bool) (l : list A) :
  (forall x, f x = false) -> List.filter f l = [].
Proof. intros H. induction l as [|x l IH]; simpl; [done|]. by rewrite H. Qed.

Lemma candidates_length pdf_files (record : row) :
  length (candidates (pdf_map pdf_files) record) = hit_count pdf_files record.
Proof.
  unfold candidates, hit_count.
  destruct (Py.text (Py.get record match_column)) as [|c v]; simpl.
  - rewrite record_normalized_nil.
    by rewrite (filter_all_false _ _ hits_nil).
  - by rewrite matching_pdfs_perm, length_map.
Qed.

(** X12: a record is unmatched exactly when no file hits it, matched
    exactly when one file does, and multi-matched exactly when two or more
    do; a file hits when its key is not empty and starts the normalized
    cell. *)
Theorem outcome_by_hit_count pdf_files records (idx : nat) (record : row) :
  records !! idx = Some record ->
  let r := run pdf_files records in
  (In idx (unmatched r) <-> hit_count pdf_files record = 0%nat)
  /\ (In idx (List.map fst (matched r)) <-> hit_count pdf_files record = 1%nat)
  /\ (In idx (List.map fst (multi_matched r))
      <-> (2 <= hit_count pdf_files record)%nat).
Proof.
  intros Hrec r. rewrite <- candidates_length.
  destruct (run_sound pdf_files records) as (Hm & Hu & Hmm). fold r in Hm, Hu, Hmm.
  pose proof (match_outcome unicode_decimal match_column use_doi use_special
                has_year pdf_files records idx record Hrec) as Hout.
  fold r in Hout.
  repeat split.
  - intros (rec' & Hrec' & Hc)%Hu. simplify_eq. by rewrite Hc.
  - intros Hlen. by destruct (candidates _ record).
  - intros ([i p] & <- & (rec' & Hrec' & Hc)%Hm)%in_map_iff.
    simpl in *. simplify_eq. by rewrite Hc.
  - intros Hlen. destruct (candidates _ record) as [|p [|q ps]]; try done.
    apply in_map_iff. by exists (idx, p).
  - intros ([i ps] & <- & (rec' & Hrec' & <- & Hlen)%Hmm)%in_map_iff.
    simpl in *. by simplify_eq.
  - intros Hlen. destruct (candidates _ record) as [|p [|q ps]] eqn:E;
      [simpl in Hlen; lia..|].
    apply in_map_iff. by exists (idx, p :: q :: ps).
Qed.

(** X13: every multi-matched entry lists two or more paths, and every path
    of a matched or multi-matched entry is the path of a file of the file
    set. *)
Theorem outcome_paths_from_files pdf_files records :
  let r := match_pdfs_to_records unicode_decimal match_column
             use_doi use_special has_year pdf_files records in
  List.Forall
    (fun e : nat * list path =>
       (2 <= length e.2)%nat
       /\ List.Forall (fun p => In p (List.map snd pdf_files)) e.2)
    (multi_matched r)
  /\ List.Forall (fun e : nat * path => In e.2 (List.map snd pdf_files))
       (matched r).
Proof.
  intros r.
  destruct (run_sound pdf_files records) as (Hm & _ & Hmm). fold r in Hm, Hmm.
  assert (Hfile : forall record p,
            In p (candidates (pdf_map pdf_files) record) ->
            In p (List.map snd pdf_files)).
  { intros record p (name & Hin & _)%candidates_iff.
    apply in_map_iff. by exists (name, p). }
  split; apply List.Forall_forall.
  - intros [i ps] (record & _ & <- & Hlen)%Hmm. split; [done|].
    apply List.Forall_forall. apply Hfile.
  - intros [i p] (record & _ & Hc)%Hm. apply (Hfile record). simpl.
    rewrite Hc. by left.
Qed.

Lemma fold_no_files (records : list row) (n : nat) acc :
  fold_left (step []) (combine (seq n (length records)) records) acc
  = MatchResult (matched acc) (unmatched acc ++ seq n (length records))
      (multi_matched acc).
Proof.
  revert n acc. induction records as [|record records IH]; intros n acc; simpl.
  - rewrite app_nil_r. by destruct acc.
  - rewrite IH. unfold match_step.
    destruct (negb (Py.truthy (Py.text (Py.get record match_column)))); simpl;
      by rewrite <- app_assoc.
Qed.

(** X14: with an empty file set every record is unmatched, in the order of
    the records, and nothing is matched or multi-matched. *)
Theorem match_without_files records :
  match_pdfs_to_records unicode_decimal match_column
    use_doi use_special has_year [] records
  = MatchResult [] (seq 0 (length records)) [].
Proof. apply (fold_no_files records 0 (MatchResult [] [] [])). Qed.

Lemma sublist_seq_lt (l : list nat) (k i : nat) :
  l `sublist_of` seq 0 k -> In i l -> (i < k)%nat.
Proof.
  intros Hsub Hi. apply list_elem_of_In in Hi.
  apply (sublist_subseteq _ _ Hsub), list_elem_of_In, in_seq in Hi. lia.
Qed.

Lemma step_in_order m acc (k : nat) (record : row) :
  in_record_order k acc -> in_record_order (S k) (step m acc (k, record)).
Proof.
  intros (Hm & Hu & Hmm). unfold in_record_order. rewrite seq_S. simpl.
  assert (Hnone : in_record_order (S k)
            (MatchResult (matched acc) (unmatched acc ++ [k])
               (multi_matched acc))).
  { unfold in_record_order. rewrite seq_S. simpl.
    split; [by apply sublist_inserts_r|].
    split; [by apply sublist_app | by apply sublist_inserts_r]. }
  unfold in_record_order in Hnone. rewrite seq_S in Hnone. simpl in Hnone.
  unfold match_step. destruct (negb _); [done|].
  destruct (matching_pdfs m _) as [|p [|q ps]]; [done| |]; simpl.
  - rewrite upsert_fresh by (intros Hin; apply (sublist_seq_lt _ _ _ Hm) in Hin; lia).
    rewrite List.map_app. simpl.
    split; [by apply sublist_app|].
    split; by apply sublist_inserts_r.
  - rewrite List.map_app. simpl.
    split; [by apply sublist_inserts_r|].
    split; [by apply sublist_inserts_r | by apply sublist_app].
Qed.

Lemma fold_in_order m (records : list row) (n : nat) acc :
  in_record_order n acc ->
  in_record_order (n + length records)
    (fold_left (step m) (combine (seq n (length records)) records) acc).
Proof.
  revert n acc. induction records as [|record records IH]; intros n acc H; simpl.
  - by rewrite Nat.add_0_r.
  - replace (n + S (length records))%nat with (S n + length records)%nat by lia.
    apply IH. by apply step_in_order.
Qed.

(** X15: the matched map, the unmatched list and the multi-matched list
    each list their records in the order of the records. *)
Theorem outcomes_in_record_order pdf_files records :
  in_record_order (length records) (run pdf_files records).
Proof.
  apply (fold_in_order (pdf_map pdf_files) records 0 (MatchResult [] [] [])).
  unfold in_record_order. simpl. repeat split; apply sublist_nil_l.
Qed.

Lemma key_decoded (pdf_name : str) :
  key pdf_name = normalize_text (decoded pdf_name) (negb use_doi).
Proof. unfold pdf_normalized, decoded. by destruct use_doi. Qed.

Lemma record_normalized_eq (v : str) :
  record_normalized use_doi v = normalize_text v (negb use_doi).
Proof. unfold record_normalized. by destruct use_doi. Qed.

(** X16: when the cell of a record starts, character by character, with
    the text decoded from a file name, and that text normalizes to a key
    that is not empty, the record is not unmatched: it is matched to that
    file, or multi-matched with that file among the candidates. *)
Theorem literal_prefix_matches pdf_files records (idx : nat) (record : row)
    (name : str) (p : path) :
  In (name, p) pdf_files -> records !! idx = Some record ->
  decoded name `prefix_of` Py.text (Py.get record match_column) ->
  key name <> [] ->
  let r := run pdf_files records in
  ~ In idx (unmatched r)
  /\ (In (idx, p) (matched r)
      \/ exists ps, In (idx, ps) (multi_matched r) /\ In p ps).
Proof.
  intros Hfile Hrec [k Hpre] Hkey r.
  assert (Hp : In p (candidates (pdf_map pdf_files) record)).
  { apply candidates_iff. exists name. repeat split; [done..|].
    rewrite key_decoded, record_normalized_eq, Hpre, normalize_text_app.
    by eexists. }
  destruct (run_sound pdf_files records) as (_ & Hu & _). fold r in Hu.
  pose proof (match_outcome unicode_decimal match_column use_doi use_special
                has_year pdf_files records idx record Hrec) as Hout.
  fold r in Hout. split.
  - intros (rec' & Hrec' & Hc)%Hu. simplify_eq. by rewrite Hc in Hp.
  - destruct (candidates _ record) as [|q [|q' ps]] eqn:E; [done| |].
    + left. by destruct Hp as [<-|[]].
    + right. by exists (q :: q' :: ps).
Qed.

End MatchFacts.

Lemma outcome_by_hit_count_witness :
  In 0%nat
    (List.map fst
       (multi_matched
          (match_pdfs_to_records ascii_decimal title false false false
             [(lit "Trust", lit "1.pdf"); (lit "Trust in Teams", lit "2.pdf")]
             [title_row "Trust in teams: a study"]))).
Proof.
  apply (outcome_by_hit_count ascii_decimal title false false false
           [(lit "Trust", lit "1.pdf"); (lit "Trust in Teams", lit "2.pdf")]
           [title_row "Trust in teams: a study"] 0%nat
           (title_row "Trust in teams: a study") eq_refl).
  vm_compute. lia.
Defined.

Lemma literal_prefix_matches_witness :
  In (0%nat, lit "a.pdf")
    (matched
       (match_pdfs_to_records ascii_decimal title false false true
          [(lit "Study of Trust_2021_DSS", lit "a.pdf")]
          [title_row "Study of Trust in Teams"])).
Proof.
  destruct (literal_prefix_matches ascii_decimal title false false true
              [(lit "Study of Trust_2021_DSS", lit "a.pdf")]
              [title_row "Study of Trust in Teams"] 0%nat
              (title_row "Study of Trust in Teams")
              (lit "Study of Trust_2021_DSS") (lit "a.pdf"))
    as [_ [H|(ps & H & _)]].
  - by left.
  - reflexivity.
  - by exists (lit " in Teams").
  - discriminate.
  - exact H.
  - destruct H.
Defined.

(** ** The tables and the statistics of a journal *)
Section JournalFacts.

Variable unicode_decimal : N -> bool.
Variables use_doi use_special has_year : bool.

Local Abbreviation stats :=
  (process_journal_stats unicode_decimal use_doi use_special has_year).
Local Abbreviation outcome :=
  (journal_match unicode_decimal use_doi use_special has_year).

(** X17: the statistics of a journal add up: matched, unmatched and
    multi-matched together are the number of records, with or without PDF
    files. *)
Theorem process_journal_stats_add_up (pdf_files : list (str * path))
    (records : list row) :
  let s := process_journal_stats unicode_decimal use_doi use_special
             has_year pdf_files records in
  total_records s = length records
  /\ (stats_matched s + stats_unmatched s + stats_multi_matched s)%nat
     = total_records s.
Proof.
  unfold process_journal_stats. destruct pdf_files as [|f fs]; simpl;
    [split; [done|lia]|].
  split; [done|]. apply run_lengths.
Qed.

(** X18: whatever happens in a run of [process_journal], a table that is
    written holds the rows built for it from the result of the match and is
    not empty.  A journal without PDF files gets no table at all.  When the
    run returns for a journal with PDF files it has written, in this order,
    the matched, the unmatched and the multi-matched table, leaving out the
    empty ones; each holds as many rows as its statistic says, and between
    them they hold one row for every record. *)
Theorem process_journal_tables (repr : str -> str) (env : environment)
    (pdf_files : list (str * path)) (records : list row) :
  let run := journal_run repr unicode_decimal use_doi use_special has_year
               env pdf_files records in
  let r := journal_match unicode_decimal use_doi use_special has_year
             pdf_files records in
  (forall t rows,
      In (t, rows) run.1 -> table_rows t records r = Some rows /\ rows <> [])
  /\ (pdf_files = [] ->
      run = ([], Some (JournalStats (length records) 0 0 (length records) 0)))
  /\ (forall s,
        pdf_files <> [] -> run.2 = Some s ->
        exists m u mm,
          run.1 = table_part Matched m ++ table_part Unmatched u
                  ++ table_part MultiMatched mm
          /\ table_rows Matched records r = Some m
          /\ table_rows Unmatched records r = Some u
          /\ table_rows MultiMatched records r = Some mm
          /\ length m = stats_matched s /\ length u = stats_unmatched s
          /\ length mm = stats_multi_matched s
          /\ (length m + length u + length mm)%nat = length records).
Proof.
  intros run r. split; [|split].
  - intros t rows. apply journal_run_tables.
  - by intros ->.
  - intros s Hfiles Hs.
    apply journal_run_returned in Hs
      as (m & u & mm & Hm & Hu & Hmm & Hlm & Hlu & Hlmm & Hrun & ->); [|done].
    exists m, u, mm. fold r in Hm, Hu, Hmm, Hlm, Hlu, Hlmm.
    repeat split; try done.
    1-3: destruct pdf_files; [done | by simpl].
    rewrite Hlm, Hlu, Hlmm. apply run_lengths.
Qed.

(** X30: given the records and the files as read, a run of
    [process_journal] ends by an exception in these cases only: the journal
    has PDF files and the console fails after a report of duplicated file
    names or of duplicated cells, or the check of the column raises, or the
    writer of a table that is not empty fails.  No save fails for an index
    out of range. *)
Theorem process_journal_raises (repr : str -> str) (env : environment)
    (pdf_files : list (str * path)) (records : list row) :
  let run := journal_run repr unicode_decimal use_doi use_special has_year
               env pdf_files records in
  let r := journal_match unicode_decimal use_doi use_special has_year
             pdf_files records in
  let csv_dups :=
    check_duplicates_in_csv (journal_column use_doi) use_doi records in
  run.2 = None
  <-> pdf_files <> []
      /\ ((check_duplicates_in_files repr use_doi pdf_files <> []
           /\ prompt_files env = false)
          \/ csv_dups = None
          \/ (csv_dups <> Some [] /\ prompt_cells env = false)
          \/ (matched r <> [] /\ writes env Matched = false)
          \/ (unmatched r <> [] /\ writes env Unmatched = false)
          \/ (multi_matched r <> [] /\ writes env MultiMatched = false)).
Proof.
  intros run r csv_dups. destruct pdf_files as [|f fs].
  { split; [done | by intros [? _]]. }
  destruct (journal_run_files repr unicode_decimal use_doi use_special
              has_year env f fs records)
    as (m & u & mm & _ & _ & _ & Hlm & Hlu & Hlmm & Hrun).
  fold run in Hrun. fold (journal_column use_doi) in Hrun.
  fold csv_dups in Hrun. fold r in Hlm, Hlu, Hlmm. rewrite Hrun. clear Hrun.
  assert (Hnil : forall {A B} (l : list A) (k : list B),
            length l = length k -> (l = [] <-> k = [])).
  { intros A B l k Hlen. by destruct l, k. }
  rewrite <- (Hnil _ _ _ _ Hlm), <- (Hnil _ _ _ _ Hlu), <- (Hnil _ _ _ _ Hlmm).
  assert (Hguard : forall {A} (l : list A) (b : bool),
            bool_decide (l = []) || b = false <-> l <> [] /\ b = false).
  { intros A l b. rewrite orb_false_iff, bool_decide_eq_false. done. }
  destruct (bool_decide _ || prompt_files env) eqn:EA;
    [|apply Hguard in EA; split; [intros _; split; [done|by left] | done]].
  destruct csv_dups as [dups|];
    [|split; [intros _; split; [done|right; by left] | done]].
  destruct (bool_decide _ || prompt_cells env) eqn:EB.
  2:{ apply Hguard in EB as [EB EB']. split; [intros _|done].
      split; [done|]. right; right; left. split; [congruence|done]. }
  destruct (bool_decide _ || writes env Matched) eqn:EC.
  2:{ apply Hguard in EC. split; [intros _|done].
      split; [done|]. by right; right; right; left. }
  destruct (bool_decide _ || writes env Unmatched) eqn:ED.
  2:{ apply Hguard in ED. split; [intros _|done].
      split; [done|]. by right; right; right; right; left. }
  destruct (bool_decide _ || writes env MultiMatched) eqn:EE.
  2:{ apply Hguard in EE. split; [intros _|done].
      split; [done|]. by right; right; right; right; right. }
  split; [done|]. intros [_ H].
  assert (Hnot : forall {A} (l : list A) (b : bool),
            bool_decide (l = []) || b = true -> ~ (l <> [] /\ b = false)).
  { intros A l b Ht [Hl ->]. rewrite orb_false_r in Ht.
    by apply bool_decide_eq_true in Ht. }
  apply Hnot in EA, EB, EC, ED, EE. exfalso.
  destruct H as [H|[H|[[H H']|[H|[H|H]]]]]; [tauto|done| |tauto..].
  apply EB. split; [congruence|done].
Qed.

End JournalFacts.

(** ** The download link *)
Section LinkFacts.

Lemma lstrip_head (s : str) (c : N) (r : str) :
  lstrip s = c :: r -> is_space c = false.
Proof.
  induction s as [|x s IH]; simpl; [done|].
  destruct (is_space x) eqn:E; [done|]. by intros [= <- _].
Qed.

Lemma lstrip_suffix (s : str) : exists k, s = k ++ lstrip s /\ blank k.
Proof.
  induction s as [|x s (k & Hk & Hb)]; simpl;
    [exists []; split; [done|constructor]|].
  destruct (is_space x) eqn:E.
  - exists (x :: k). split; [simpl; by f_equal|by constructor].
  - exists []. split; [done|constructor].
Qed.

Lemma lstrip_nil (s : str) : lstrip s = [] <-> blank s.
Proof.
  induction s as [|x s IH]; simpl; [split; [constructor|done]|].
  destruct (is_space x) eqn:E.
  - rewrite IH. split; [by constructor|by intros ?%List.Forall_inv_tail].
  - split; [done|]. intros H%List.Forall_inv. congruence.
Qed.

Lemma lstrip_id (s : str) :
  (forall c r, s = c :: r -> is_space c = false) -> lstrip s = s.
Proof. destruct s as [|c r]; [done|]. intros H. simpl. by rewrite (H c r). Qed.

Lemma strip_trimmed (s : str) : trimmed (strip s).
Proof.
  unfold strip. destruct (lstrip_suffix (rev (lstrip s))) as (k & Hk & _).
  split.
  - intros c r Hrev.
    assert (HY : lstrip (rev (lstrip s)) = rev r ++ [c]).
    { rewrite <- (rev_involutive (lstrip _)), Hrev. done. }
    rewrite HY in Hk. apply (f_equal (@rev N)) in Hk.
    rewrite rev_involutive, !rev_app_distr, rev_involutive in Hk. simpl in Hk.
    by apply lstrip_head in Hk.
  - intros c Hlast.
    destruct (lstrip (rev (lstrip s))) as [|y Y] eqn:E; [done|].
    simpl in Hlast. rewrite last_snoc in Hlast. injection Hlast as <-.
    by apply lstrip_head in E.
Qed.

Lemma strip_id (s : str) : trimmed s -> strip s = s.
Proof.
  intros [Hhead Hlast]. unfold strip. rewrite (lstrip_id s Hhead).
  rewrite lstrip_id; [apply rev_involutive|].
  intros c r Hrev. apply Hlast.
  rewrite <- (rev_involutive s), Hrev. simpl. apply last_snoc.
Qed.

Lemma strip_nil (s : str) : strip s = [] <-> blank s.
Proof.
  unfold strip. split.
  - intros H. apply (f_equal (@rev N)) in H. rewrite rev_involutive in H.
    simpl in H. apply lstrip_nil in H.
    apply lstrip_nil. destruct (lstrip s) as [|c r] eqn:E; [done|].
    apply lstrip_head in E. exfalso.
    apply List.Forall_forall with (x := c) in H; [congruence|].
    apply in_rev. rewrite rev_involutive. by left.
  - intros H%lstrip_nil. by rewrite H.
Qed.

Lemma truthy_false (s : str) : Py.truthy s = false <-> s = [].
Proof. by destruct s. Qed.

(** X19: the link made of an identifier has no white space at either end,
    and making a link of a link returns it unchanged. *)
Theorem generate_doi_url_idempotent (doi : str) :
  trimmed (generate_doi_url doi)
  /\ generate_doi_url (generate_doi_url doi) = generate_doi_url doi.
Proof.
  assert (Hnil : trimmed []) by (by split).
  assert (Hfix : forall u, trimmed u -> u <> [] ->
                           startswith u (lit "http") = true ->
                           generate_doi_url u = u).
  { intros u Hu Hne Hh. unfold generate_doi_url. rewrite (strip_id u Hu), Hh.
    by destruct u. }
  unfold generate_doi_url at 1 3 4.
  destruct (negb (Py.truthy doi) || negb (Py.truthy (strip doi))) eqn:E;
    [by split|].
  apply orb_false_iff in E as [_ E]. apply negb_false_iff in E.
  apply truthy_nonempty in E.
  pose proof (strip_trimmed doi) as Ht.
  destruct (startswith (strip doi) (lit "http")) eqn:Eh.
  - split; [done|]. by apply Hfix.
  - assert (Hlink : trimmed (lit "https://doi.org/" ++ strip doi)).
    { split; [by intros c r [= <- _]|].
      intros c Hc. apply Ht.
      destruct (strip doi) as [|x l] using rev_ind; [done|].
      rewrite app_assoc, last_snoc in Hc. by rewrite last_snoc. }
    split; [done|]. by apply Hfix.
Qed.

(** X20: the link is empty exactly when the identifier is empty or white
    space only. *)
Theorem generate_doi_url_empty (doi : str) :
  generate_doi_url doi = [] <-> blank doi.
Proof.
  unfold generate_doi_url.
  destruct (negb (Py.truthy doi) || negb (Py.truthy (strip doi))) eqn:E.
  - split; [intros _|done].
    apply orb_true_iff in E as [E|E]; apply negb_true_iff, truthy_false in E.
    + subst. constructor.
    + by apply strip_nil.
  - apply orb_false_iff in E as [_ E]. apply negb_false_iff in E.
    apply truthy_nonempty in E.
    split; [|by intros H%strip_nil].
    by destruct (startswith (strip doi) (lit "http")).
Qed.

End LinkFacts.

(** ** More on merging *)
Section MergeMore.

Lemma merge_row_plain (aj al : bool) (key jn : str) (st : merge_state)
    (r : row) :
  merge_row aj al false key ∅ jn st r
  = MergeState (all_records st ++ [annotate aj al jn r]) (all_headers st)
      (seen_keys st).
Proof.
  unfold merge_row.
  by rewrite bool_decide_eq_false_2 by apply not_elem_of_empty.
Qed.

Lemma merge_tagged_plain (aj al : bool) (key : str) (st : merge_state)
    (inputs : list (str * row)) :
  all_records (merge_tagged aj al false key ∅ st inputs)
  = all_records st ++ List.map (fun x => annotate aj al x.1 x.2) inputs.
Proof.
  unfold merge_tagged. revert st.
  induction inputs as [|x inputs IH]; intros st; simpl; [by rewrite app_nil_r|].
  rewrite IH, merge_row_plain. simpl. by rewrite <- app_assoc.
Qed.

Lemma merge_plain (aj al : bool) (key : str) (csv_files : list csv_file) :
  all_records (merge_csv_files aj al false key ∅ csv_files)
  = List.map (fun x => annotate aj al x.1 x.2) (tagged csv_files).
Proof.
  destruct (merge_files_same aj al false key ∅ csv_files
              (MergeState [] None ∅) (MergeState [] None ∅)) as [H _]; [done|].
  unfold merge_csv_files. by rewrite H, merge_tagged_plain.
Qed.

(** X21: the merges of the matched and of the multi-matched partitions
    drop and reorder nothing: they hold every row read, in the order read,
    with the journal name of its file (and, for the multi-matched rows,
    the link of its identifier). *)
Theorem merge_keeps_every_row (partitions : list csv_file) :
  all_records (merge_matched partitions)
  = List.map (fun x : str * row => <[lit "Journal" := Some x.1]> x.2)
      (tagged partitions)
  /\ all_records (merge_multi_matched partitions)
     = List.map
         (fun x : str * row =>
            <[lit "DOI_Download_Link" :=
                Some (generate_doi_url (Py.text (Py.get x.2 doi_column)))]>
              (<[lit "Journal" := Some x.1]> x.2))
         (tagged partitions)
  /\ length (all_records (merge_matched partitions))
     = length (rows_read partitions).
Proof.
  unfold merge_matched, merge_multi_matched. rewrite !merge_plain.
  repeat split.
  - apply map_ext. intros [jn r]. unfold annotate. simpl.
    unfold Py.get. by rewrite lookup_insert_ne.
  - by rewrite length_map, <- tagged_rows, length_map.
Qed.

Lemma before_underscore_app (a rest : str) :
  ~ In 95 a -> before_underscore (a ++ 95 :: rest) = a.
Proof.
  induction a as [|c a IH]; simpl; [done|]. intros H.
  destruct (N.eqb_spec c 95) as [->|_]; [tauto|]. f_equal. apply IH. tauto.
Qed.

Lemma before_underscore_free (s : str) : ~ In 95 (before_underscore s).
Proof.
  induction s as [|c s IH]; simpl; [tauto|].
  destruct (N.eqb_spec c 95) as [->|Hne]; simpl; [tauto|].
  intros [H|H]; [done|tauto].
Qed.

(** X22: the journal name read back from the name of a partition file,
    [<journal>_<suffix>], is the journal the file was written for exactly
    when that journal name holds no underscore. *)
Theorem journal_name_round_trip (journal suffix : str) :
  before_underscore (journal ++ lit "_" ++ suffix) = journal
  <-> ~ In 95 journal.
Proof.
  split.
  - intros <-. apply before_underscore_free.
  - apply before_underscore_app.
Qed.

Local Abbreviation has_doi k := (fun r : row => Py.get r doi_column = k).

Lemma filter_cover_length {A} (P Q R : A -> Prop)
    `{!forall x, Decision (P x)} `{!forall x, Decision (Q x)}
    `{!forall x, Decision (R x)} (l : list A) :
  (forall x, R x -> P x \/ Q x) ->
  (length (filter R l) <= length (filter P l) + length (filter Q l))%nat.
Proof.
  intros Hcover. induction l as [|x l IH]; [done|]. rewrite !filter_cons.
  destruct (decide (R x)) as [[HP|HQ]%Hcover|_];
    destruct (decide (P x)), (decide (Q x)); simpl; try lia; done.
Qed.

(** X23: no two rows of the merged unmatched table have the same [DOI]
    cell, the empty text and [None] being two cells.  So no two rows have
    the same identifier, and at most two rows are without one: one with an
    empty cell and one, of a short line, with none. *)
Theorem merged_unmatched_distinct (exclude_keys : gset cell)
    (partitions : list csv_file) :
  let merged := merge_unmatched exclude_keys partitions in
  NoDup (List.map (fun r => Py.get r doi_column) merged)
  /\ (forall identifier : str,
        identifier <> [] ->
        (length (filter (fun r : row =>
                           Py.text (Py.get r doi_column) = identifier)
                   merged) <= 1)%nat)
  /\ (length (filter (fun r : row => Py.text (Py.get r doi_column) = [])
                merged) <= 2)%nat.
Proof.
  intros merged.
  assert (Hone : forall k : cell,
            (length (filter (has_doi k) merged) <= 1)%nat).
  { intros k. unfold merged. rewrite merge_unmatched_key.
    destruct (bool_decide _); simpl; [lia|].
    rewrite length_map, length_take. lia. }
  split; [by apply NoDup_map_filter|]. split.
  - intros identifier Hne.
    rewrite (list_filter_iff _ (has_doi (Some identifier))); [apply Hone|].
    intros r. destruct (Py.get r doi_column) as [t|]; simpl;
      split; congruence.
  - assert (Hcover : forall k1 k2 : cell,
              (forall r : row,
                  Py.text (Py.get r doi_column) = [] ->
                  has_doi k1 r \/ has_doi k2 r) ->
              (length (filter (fun r : row =>
                                 Py.text (Py.get r doi_column) = [])
                         merged) <= 2)%nat).
    { intros k1 k2 Hk. etrans;
        [by apply (filter_cover_length (has_doi k1) (has_doi k2))
        |apply (Nat.add_le_mono _ 1 _ 1); apply Hone]. }
    apply (Hcover (Some []) None).
    intros r. destruct (Py.get r doi_column) as [t|]; simpl; [|by right].
    intros ->. by left.
Qed.

(** X24: the identifiers of the merged unmatched table are the identifiers
    of the rows read that are not excluded: none is lost, none is added. *)
Theorem merged_unmatched_identifiers (exclude_keys : gset cell)
    (partitions : list csv_file) (k : cell) :
  (exists r, In r (merge_unmatched exclude_keys partitions)
             /\ Py.get r doi_column = k)
  <-> (k ∉ exclude_keys)
      /\ (exists r, In r (rows_read partitions) /\ Py.get r doi_column = k).
Proof.
  assert (Hne : forall l : list row,
            filter (has_doi k) l <> []
            <-> (exists r, In r l /\ Py.get r doi_column = k)).
  { intros l. split.
    - destruct (filter (has_doi k) l) as [|r l'] eqn:E; [done|]. intros _.
      assert (Hr : r ∈ filter (has_doi k) l) by (rewrite E; by left).
      apply list_elem_of_filter in Hr as [Hk Hr]. exists r.
      split; [by apply list_elem_of_In|done].
    - intros (r & Hr & Hk) Hnil.
      assert (Hin : r ∈ filter (has_doi k) l)
        by (apply list_elem_of_filter; split; [done|by apply list_elem_of_In]).
      rewrite Hnil in Hin. by apply not_elem_of_nil in Hin. }
  rewrite <- !Hne, merge_unmatched_key.
  destruct (bool_decide (k ∈ exclude_keys)) eqn:E.
  - apply bool_decide_eq_true in E. split; [done|by intros [? _]].
  - apply bool_decide_eq_false in E.
    destruct (filter (has_doi k) (rows_read partitions)); simpl;
      split; [done|by intros [_ ?]|done|done].
Qed.

Lemma sublist_map {A B} (f : A -> B) (l1 l2 : list A) :
  l1 `sublist_of` l2 -> List.map f l1 `sublist_of` List.map f l2.
Proof.
  induction 1; simpl; [constructor|by apply sublist_skip|by apply sublist_cons].
Qed.

(** X25: the merged unmatched table is a selection of the rows read, in the
    order read, each changed in its link column only, which holds the link
    of its identifier. *)
Theorem merged_unmatched_selection (exclude_keys : gset cell)
    (partitions : list csv_file) :
  exists kept : list row,
    kept `sublist_of` rows_read partitions
    /\ merge_unmatched exclude_keys partitions = List.map with_link kept.
Proof.
  unfold merge_unmatched. fold doi_column.
  destruct (merge_csv_files_spec false true true doi_column exclude_keys
              partitions) as (kept & -> & Hsub & _).
  exists (List.map snd kept). split.
  - rewrite <- tagged_rows. by apply sublist_map.
  - by rewrite List.map_map.
Qed.

End MergeMore.

(** ** The header written, and what [main] excludes *)
Section HeaderFacts.

Variables (add_journal_column add_doi_link deduplicate : bool).
Variable dedup_key : str.
Variable exclude_keys : gset cell.

Local Abbreviation mrow :=
  (merge_row add_journal_column add_doi_link deduplicate dedup_key
     exclude_keys).
Local Abbreviation mfile :=
  (merge_file add_journal_column add_doi_link deduplicate dedup_key
     exclude_keys).
Local Abbreviation merge :=
  (merge_csv_files add_journal_column add_doi_link deduplicate dedup_key
     exclude_keys).
Local Abbreviation header_of :=
  (base_headers add_journal_column add_doi_link).

Lemma merge_rows_headers (jn : str) (rs : list row) (st : merge_state) :
  all_headers (fold_left (mrow jn) rs st) = all_headers st.
Proof.
  revert st. induction rs as [|r rs IH]; intros st; simpl; [done|].
  rewrite IH. unfold merge_row.
  destruct (bool_decide _); [done|]. by destruct (_ && _).
Qed.

(** The header a file read to its end would give. *)
Local Abbreviation header_read f :=
  (if read_error f then None else Some (header_of (fieldnames f))).

Lemma merge_file_headers (st : merge_state) (f : csv_file) :
  all_headers (mfile st f)
  = match all_headers st with
    | Some h => Some h
    | None => header_read f
    end.
Proof.
  unfold merge_file.
  pose proof (merge_rows_headers (before_underscore (stem f)) (rows f) st) as H.
  destruct (read_error f); [by destruct (all_headers st)|].
  destruct (all_headers (fold_left _ (rows f) st)) eqn:E; simpl;
    rewrite <- H; by rewrite ?E.
Qed.

Lemma merge_files_headers (fs : list csv_file) (st : merge_state) :
  all_headers (fold_left mfile fs st)
  = match all_headers st with
    | Some h => Some h
    | None =>
        (fun f => header_of (fieldnames f))
          <$> head (List.filter (fun f => negb (read_error f)) fs)
    end.
Proof.
  revert st. induction fs as [|f fs IH]; intros st; simpl;
    [by destruct (all_headers st)|].
  rewrite IH, merge_file_headers.
  destruct (all_headers st); [done|]. by destruct (read_error f).
Qed.

(** X26: the header a merge writes is the header of the first file that is
    read to its end, with the added columns, whatever the headers of the
    other files are; a file whose reading raises gives its rows and no
    header.  So the merge has rows to write and no header for them exactly
    when it has kept a row and the reading of every file raised. *)
Theorem merge_header_of_first_file (csv_files : list csv_file) :
  all_headers (merge csv_files)
  = (fun f => header_of (fieldnames f))
      <$> head (List.filter (fun f => negb (read_error f)) csv_files)
  /\ (merge_written (merge csv_files) = Some None
      <-> all_records (merge csv_files) <> []
          /\ Forall (fun f => read_error f = true) csv_files).
Proof.
  assert (Hh : all_headers (merge csv_files)
               = (fun f => header_of (fieldnames f))
                   <$> head (List.filter (fun f => negb (read_error f))
                               csv_files))
    by apply merge_files_headers.
  split; [done|]. unfold merge_written. rewrite Hh.
  assert (Hnone : head (List.filter (fun f => negb (read_error f)) csv_files)
                  = None
                  <-> Forall (fun f => read_error f = true) csv_files).
  { clear Hh. induction csv_files as [|f fs IH]; simpl.
    - split; [constructor|done].
    - destruct (read_error f) eqn:E; simpl.
      + rewrite IH. split; [by constructor|by intros [_ ?]%Forall_cons].
      + split; [done|]. intros [? _]%Forall_cons. congruence. }
  destruct (all_records (merge csv_files)) as [|r rs].
  { split; [done|by intros [? _]]. }
  destruct (head _) as [f|]; simpl.
  - split; [done|]. intros [_ H%Hnone]. done.
  - split; [intros _|done]. split; [done|by apply Hnone].
Qed.

End HeaderFacts.

Section MainExclusion.

Lemma collect_matched_dois_fold (rows : list row) (acc : gset cell)
    (k : cell) :
  k ∈ fold_left
        (fun dois r =>
           let doi := Py.get r (lit "DOI") in
           if Py.truthy (Py.text doi) then {[doi]} ∪ dois else dois)
        rows acc
  <-> k ∈ acc
      \/ (Py.text k <> [] /\ exists r, In r rows /\ Py.get r doi_column = k).
Proof.
  revert acc. induction rows as [|r rows IH]; intros acc; simpl.
  - split; [by left|]. by intros [?|(_ & ? & [] & _)].
  - rewrite IH. fold doi_column.
    destruct (Py.truthy (Py.text (Py.get r doi_column))) eqn:E.
    + apply truthy_nonempty in E.
      rewrite elem_of_union, elem_of_singleton. split.
      * intros [[->|?]|(Hne & r' & Hin & Hk)]; [right|by left|right].
        -- split; [done|]. exists r. split; [by left|done].
        -- split; [done|]. exists r'. split; [by right|done].
      * intros [?|(Hne & r' & [<-|Hin] & Hk)];
          [left; by right|left; left; congruence|right].
        split; [done|]. by exists r'.
    + apply truthy_false in E.
      split; (intros [?|(Hne & r' & Hin & Hk)]; [by left|right]);
        (split; [done|]).
      * exists r'. split; [by right|done].
      * destruct Hin as [<-|Hin]; [congruence|by exists r'].
Qed.

Lemma collect_matched_dois_spec (matched_rows : list row) (k : cell) :
  k ∈ collect_matched_dois matched_rows
  <-> Py.text k <> []
      /\ exists r, In r matched_rows /\ Py.get r doi_column = k.
Proof.
  unfold collect_matched_dois. rewrite collect_matched_dois_fold.
  split; [intros [H|H]; [by apply not_elem_of_empty in H|done] | by right].
Qed.

(** X27: the identifiers [main] collects from the merged matched table are
    the non-empty [DOI] cells of its rows, and nothing else; neither the
    empty text nor [None] is ever among them. *)
Theorem collect_matched_dois_exact (matched_rows : list row) (k : cell) :
  (k ∈ collect_matched_dois matched_rows
   <-> Py.text k <> []
       /\ exists r, In r matched_rows /\ Py.get r doi_column = k)
  /\ (Some [] ∉ collect_matched_dois matched_rows)
  /\ (None ∉ collect_matched_dois matched_rows).
Proof.
  split; [apply collect_matched_dois_spec|].
  split; by intros [? _]%collect_matched_dois_spec.
Qed.

(** X28: in [main], rows without a [DOI] are never excluded by the matched
    rows.  Of the unmatched rows read with an empty [DOI] cell the first
    reaches the final table and the later ones are dropped as its
    duplicates; the same holds, apart, of the rows with no [DOI] cell. *)
Theorem main_keeps_first_row_without_doi (matched_rows : list row)
    (partitions : list csv_file) (k : cell) :
  Py.text k = [] ->
  filter (fun r : row => Py.get r doi_column = k)
    (merge_unmatched (collect_matched_dois matched_rows) partitions)
  = List.map with_link
      (take 1 (filter (fun r : row => Py.get r doi_column = k)
                 (rows_read partitions))).
Proof.
  intros Hk. rewrite merge_unmatched_key.
  rewrite bool_decide_eq_false_2; [done|].
  by intros [? _]%collect_matched_dois_spec.
Qed.

End MainExclusion.

(** ** The pattern of a journal *)
Section PatternFacts.

Variable upper : str -> str.

Local Abbreviation get_pattern := (JournalPatterns.get_journal_pattern upper).
Local Abbreviation of_table := (table_pattern upper).

(** The overrides of the command line can only switch identifier matching
    and encoding handling on: what the table switches on stays on, and the
    year pattern is the table's in every case. *)
Lemma get_journal_pattern_overrides (journal_name : str)
    (doi_journals special_journals : list str) :
  let p := get_pattern journal_name doi_journals special_journals in
  let t := of_table journal_name in
  JournalPatterns.has_year p = JournalPatterns.has_year t
  /\ JournalPatterns.use_doi p
     = JournalPatterns.use_doi t
       || bool_decide (upper journal_name ∈ List.map upper doi_journals)
  /\ JournalPatterns.special_encoding p
     = JournalPatterns.special_encoding t
       || bool_decide (upper journal_name ∈ List.map upper special_journals).
Proof.
  unfold JournalPatterns.get_journal_pattern, table_pattern.
  destruct (JournalPatterns.dict_find _ _) as [[y d e]|]; simpl;
    destruct (bool_decide (_ ∈ List.map upper doi_journals));
    destruct (bool_decide (_ ∈ List.map upper special_journals)); simpl;
    by rewrite ?orb_true_r, ?orb_false_r.
Qed.

(** The upper case of the two journal names [main] passes by default. *)
Hypothesis upper_isj : upper (lit "ISJ") = lit "ISJ".
Hypothesis upper_isr : upper (lit "ISR") = lit "ISR".

(** X29: with the override sets [main] passes by default, [ISJ] and [ISR],
    every journal gets exactly the pattern of the table, or the default
    pattern when the table does not list it. *)
Theorem get_journal_pattern_defaults (journal_name : str) :
  get_pattern journal_name [lit "ISJ"] [lit "ISR"] = of_table journal_name.
Proof.
  unfold JournalPatterns.get_journal_pattern, table_pattern. cbn [List.map].
  rewrite upper_isj, upper_isr.
  destruct (decide (upper journal_name = lit "ISJ")) as [->|Hj];
    [reflexivity|].
  rewrite (bool_decide_eq_false_2 (upper journal_name ∈ [lit "ISJ"]))
    by (by intros [?|[]%elem_of_nil]%elem_of_cons).
  destruct (decide (upper journal_name = lit "ISR")) as [->|Hr];
    [reflexivity|].
  rewrite (bool_decide_eq_false_2 (upper journal_name ∈ [lit "ISR"]))
    by (by intros [?|[]%elem_of_nil]%elem_of_cons).
  by destruct (JournalPatterns.dict_find (upper journal_name)
                 JournalPatterns.JOURNAL_PATTERNS).
Qed.

End PatternFacts.

Lemma get_journal_pattern_defaults_witness :
  JournalPatterns.get_journal_pattern ascii_upper (lit "isj")
    [lit "ISJ"] [lit "ISR"]
  = JournalPatterns.Pattern false true false.
Proof.
  rewrite (get_journal_pattern_defaults ascii_upper eq_refl eq_refl).
  reflexivity.
Defined.


Lemma main_keeps_first_row_without_doi_witness :
  filter (fun r : row => Py.get r doi_column = None)
    (merge_unmatched (collect_matched_dois [doi_row "10.1111/x" "matched"])
       [CsvFile (lit "J_unmatched") [title; doi_column]
          [empty_doi_row "a"; short_row "b"; doi_row "10.1111/x" "c";
           short_row "d"] false])
  = [with_link (short_row "b")].
Proof.
  apply (main_keeps_first_row_without_doi [doi_row "10.1111/x" "matched"]
           [CsvFile (lit "J_unmatched") [title; doi_column]
              [empty_doi_row "a"; short_row "b"; doi_row "10.1111/x" "c";
               short_row "d"] false]
           None).
  reflexivity.
Defined.

(** ** Further scenarios *)
Section MoreScenarios.

Example scenario_duplicate_files :
  check_duplicates_in_files plain_repr false
    [(lit "Study_2021_DSS", lit "a.pdf"); (lit "Other", lit "b.pdf");
     (lit "Study_2022_DSS", lit "c.pdf")]
  = [lit "  " ++ [26631; 20934; 21270; 21517]
     ++ lit " 'studydss': ['Study_2021_DSS', 'Study_2022_DSS']"].
Proof. reflexivity. Qed.

Example scenario_journal_stats :
  process_journal_stats ascii_decimal false false true
    [(lit "Study_2021_DSS", lit "a.pdf"); (lit "Stu_2020_DSS", lit "b.pdf")]
    [title_row "Study of Something"; empty_title_row; title_row "Other";
     title_row "Stu"]
  = JournalStats 4 2 1 2 1
  /\ process_journal_stats ascii_decimal false false true []
       [title_row "Study of Something"; empty_title_row]
     = JournalStats 2 0 0 2 0.
Proof. split; reflexivity. Qed.

(** One ambiguous record and one matched record: two tables are written,
    the matched one first, and no unmatched one. *)
Example scenario_journal_run :
  let run :=
    journal_run plain_repr ascii_decimal false false true calm
      [(lit "Study_2021_DSS", lit "a.pdf"); (lit "Stu_2020_DSS", lit "b.pdf")]
      [title_row "Study of Something"; title_row "Stu"] in
  List.map fst run.1 = [Matched; MultiMatched]
  /\ List.map
       (fun t : table * list row =>
          List.map (fun r : row => (Py.get r matched_paths_column,
                                      Py.get r match_count_column)) t.2)
       run.1
     = [[(Some [], Some [])];
        [(Some (lit "a.pdf; b.pdf"), Some (lit "2"))]]
  /\ run.2 = Some (JournalStats 2 2 1 0 1).
Proof. repeat split; reflexivity. Qed.

(** A line that ends before the title, ahead of two titles made of digits
    only: the check of the column raises before anything is matched or
    written.  So does a console that fails on the report of the
    duplicates, and a writer that fails leaves the tables written before
    it. *)
Example scenario_journal_raises :
  check_duplicates_in_csv title false
    [untitled_row "10.1/x"; title_row "123"; title_row "456"] = None
  /\ journal_run plain_repr ascii_decimal false false true calm
       [(lit "Study_2021_DSS", lit "a.pdf")]
       [untitled_row "10.1/x"; title_row "123"; title_row "456"]
     = ([], None)
  /\ journal_run plain_repr ascii_decimal false false true
       (Environment true false (fun _ => true))
       [(lit "Study_2021_DSS", lit "a.pdf")]
       [title_row "123"; title_row "456"]
     = ([], None)
  /\ List.map fst
       (journal_run plain_repr ascii_decimal false false true
          (Environment true true
             (fun t => match t with Unmatched => false | _ => true end))
          [(lit "Study_2021_DSS", lit "a.pdf")]
          [title_row "Study of Something"; title_row "Other"]).1
     = [Matched].
Proof. repeat split; reflexivity. Qed.

(** A merge whose first file cannot be read to its end takes the header of
    the second file, and keeps the rows read from the first. *)
Example scenario_merge_read_error :
  let broken :=
    CsvFile (lit "A_matched") [doi_column]
      [doi_row "10.1111/x" "read from A"] true in
  all_headers (merge_matched [broken; part_b])
  = Some [lit "Journal"; doi_column; title]
  /\ length (all_records (merge_matched [broken; part_b])) = 3%nat
  /\ merge_written (merge_matched [broken]) = Some None.
Proof. repeat split; reflexivity. Qed.

Example scenario_merge_matched :
  List.map (fun r : row => (Py.get r (lit "Journal"), Py.get r doi_column))
    (all_records (merge_matched [part_a; part_b]))
  = [(Some (lit "A"), Some (lit "10.1111/x"));
     (Some (lit "B"), Some (lit "10.1111/y"));
     (Some (lit "B"), Some (lit "10.1111/x"))]
  /\ all_headers (merge_matched [part_a; part_b])
     = Some [lit "Journal"; doi_column; title].
Proof. split; reflexivity. Qed.

Example scenario_links :
  generate_doi_url (lit "  10.1111/isj.12026 ")
  = lit "https://doi.org/10.1111/isj.12026"
  /\ generate_doi_url (lit " https://doi.org/10.1/x") = lit "https://doi.org/10.1/x"
  /\ generate_doi_url (lit "   ") = [].
Proof. repeat split; reflexivity. Qed.

Example scenario_patterns :
  JournalPatterns.get_journal_pattern ascii_upper (lit "misq") [lit "MISQ"] []
  = JournalPatterns.Pattern false true false
  /\ JournalPatterns.get_journal_pattern ascii_upper (lit "New") [] []
     = JournalPatterns.Pattern true false false.
Proof. split; reflexivity. Qed.

End MoreScenarios.
